(** * British Airways review scraper: a shallow embedding and its properties

    The development follows the two programs of the repository:

    - [scraper/scrape_reviews.py]: the field extractor ([scrape_reviews]),
      the page loop ([get_all_reviews]) and the category crawler with the
      pagination discovery ([main]);
    - [scraper/pseudonymize.py]: the identity pseudonymizer
      ([process_dataset]).

    The HTTP transport, the HTML parser and the CSV reader and writer are
    external.  A fetched page is the parse tree BeautifulSoup builds from it,
    and a dataset file is the table of its raw cells.  Strings are sequences
    of ASCII characters. *)

From Stdlib Require Import String Ascii ZArith List Lia DecimalString DecimalNat.
From stdpp Require Import gmap strings list.

Local Open Scope string_scope.
Local Open Scope Z_scope.

(** ** Python strings *)

Module PyStr.

(** [str.isspace] on the ASCII range: TAB, LF, VT, FF, CR, the four
    separators FS, GS, RS, US and the space. *)
Definition isspace (c : ascii) : bool :=
  let n := nat_of_ascii c in
  ((9 <=? n)%nat && (n <=? 13)%nat) || ((28 <=? n)%nat && (n <=? 32)%nat).

Fixpoint lstrip_chars (s : list ascii) : list ascii :=
  match s with
  | [] => []
  | c :: r => if isspace c then lstrip_chars r else s
  end.

Definition rstrip_chars (s : list ascii) : list ascii :=
  rev (lstrip_chars (rev s)).

Definition strip_chars (s : list ascii) : list ascii :=
  rstrip_chars (lstrip_chars s).

(** [s.strip()] *)
Definition strip (s : string) : string :=
  string_of_list_ascii (strip_chars (list_ascii_of_string s)).

(** [sep.join(l)] *)
Fixpoint join (sep : string) (l : list string) : string :=
  match l with
  | [] => ""
  | [x] => x
  | x :: r => x +:+ sep +:+ join sep r
  end.

(** [str(n)] for an integer. *)
Definition str_of_Z (z : Z) : string := NilZero.string_of_int (Z.to_int z).

(** [str(n)] for a length. *)
Definition str_of_nat (n : nat) : string :=
  NilZero.string_of_uint (Nat.to_uint n).

Definition is_digit (c : ascii) : bool :=
  let n := nat_of_ascii c in (48 <=? n)%nat && (n <=? 57)%nat.

Definition digit_val (c : ascii) : Z := Z.of_nat (nat_of_ascii c) - 48.

(** The digit part of an integer literal as [int()] reads it: decimal
    digits, with single underscores allowed between two digits.  [acc] is
    the value read so far, [prev_digit] tells whether the previous
    character was a digit. *)
Fixpoint int_digits (acc : Z) (prev_digit : bool) (s : list ascii)
  : option Z :=
  match s with
  | [] => if prev_digit then Some acc else None
  | c :: r =>
      if is_digit c then int_digits (10 * acc + digit_val c) true r
      else if Ascii.eqb c "_" then
             if prev_digit then int_digits acc false r else None
           else None
  end.

(** [int(s)]: surrounding white space is dropped, one sign is allowed.
    [None] stands for the [ValueError]. *)
Definition int (s : string) : option Z :=
  match strip_chars (list_ascii_of_string s) with
  | [] => None
  | c :: r =>
      if Ascii.eqb c "-" then Z.opp <$> int_digits 0 false r
      else if Ascii.eqb c "+" then int_digits 0 false r
      else int_digits 0 false (c :: r)
  end.

End PyStr.

(** ** Exceptions and results *)

Inductive exn : Type :=
| AttributeError
| IndexError
| ValueError
| TypeError
| KeyError
| FileNotFoundError
| EmptyDataError
| ParserError.

Inductive outcome (A : Type) : Type :=
| Returns (a : A)
| Raises (e : exn).

Arguments Returns {A} a.
Arguments Raises {A} e.

(** The next step on what was returned; what was raised goes through. *)
Definition and_then {A B} (o : outcome A) (k : A -> outcome B) : outcome B :=
  match o with
  | Returns a => k a
  | Raises e => Raises e
  end.

(** ** The BeautifulSoup parse tree *)

(** A node is a string or a tag.  A tag carries its name, the tokens of
    its [class] attribute (a multi-valued attribute, kept by BeautifulSoup
    as a list; empty when the attribute is absent), its other attributes
    and its contents. *)
#[warnings="-register-all"]
Inductive node : Type :=
| NavigableString (s : string)
| Tag (name : string) (classes : list string)
      (attrs : gmap string string) (contents : list node).

Module Soup.

(** All nodes below [n], in document order. *)
Fixpoint descendants (n : node) : list node :=
  match n with
  | NavigableString _ => []
  | Tag _ _ _ cs =>
      (fix below (l : list node) : list node :=
         match l with
         | [] => []
         | c :: r => c :: descendants c ++ below r
         end) cs
  end.

(** [tag.text]: the strings below the tag, concatenated. *)
Fixpoint text (n : node) : string :=
  match n with
  | NavigableString s => s
  | Tag _ _ _ cs =>
      (fix cat (l : list node) : string :=
         match l with
         | [] => ""
         | c :: r => text c +:+ cat r
         end) cs
  end.

(** [tag.get_text(strip=True)]: every string is stripped first, the
    empty ones are dropped, the rest is joined with the empty string. *)
Fixpoint get_text_strip (n : node) : string :=
  match n with
  | NavigableString s => PyStr.strip s
  | Tag _ _ _ cs =>
      (fix cat (l : list node) : string :=
         match l with
         | [] => ""
         | c :: r => get_text_strip c +:+ cat r
         end) cs
  end.

(** The keyword filters the scraper uses. *)
Inductive criterion : Type :=
| NoFilter
| ClassIs (c : string)
| AttrIs (key value : string).

(** A [class_] filter matches one of the class tokens, or the tokens
    joined by single spaces. *)
Definition class_matches (c : string) (classes : list string) : bool :=
  existsb (String.eqb c) classes
  || (negb (Nat.eqb (length classes) 0)
      && String.eqb c (PyStr.join " " classes)).

Definition satisfies (cr : criterion) (n : node) : bool :=
  match n with
  | NavigableString _ => false
  | Tag _ classes attrs _ =>
      match cr with
      | NoFilter => true
      | ClassIs c => class_matches c classes
      | AttrIs k v =>
          match attrs !! k with
          | Some v' => String.eqb v v'
          | None => false
          end
      end
  end.

Definition has_name (name : option string) (n : node) : bool :=
  match n, name with
  | Tag nm _ _ _, Some want => String.eqb nm want
  | Tag _ _ _ _, None => true
  | NavigableString _, _ => false
  end.

(** [tag.find_all(name, ...)] *)
Definition find_all (n : node) (name : option string) (cr : criterion)
  : list node :=
  List.filter (fun d => has_name name d && satisfies cr d) (descendants n).

(** [tag.find(name, ...)]: the first match or [None]. *)
Definition find (n : node) (name : option string) (cr : criterion)
  : option node :=
  head (find_all n name cr).

(** [tag.findChildren()]: every tag below, in document order. *)
Definition findChildren (n : node) : list node := find_all n None NoFilter.

(** [tag.get(key, default)] *)
Definition get (n : node) (key dflt : string) : string :=
  match n with
  | Tag _ _ attrs _ => default dflt (attrs !! key)
  | NavigableString _ => dflt
  end.

End Soup.

(** ** The regular expression of the country rule *)

Module Re.

(** [.] without the DOTALL flag matches every character but the line
    feed. *)
Definition is_newline (c : ascii) : bool := Ascii.eqb c "010".

(** The lookahead [(?=\))]: the next character is a closing bracket. *)
Definition close_ahead (s : list ascii) : bool :=
  match s with
  | c :: _ => Ascii.eqb c ")"
  | [] => false
  end.

(** The lookbehind [(?<=\()]: the character before is an opening
    bracket. *)
Definition open_behind (prev : option ascii) : bool :=
  match prev with
  | Some c => Ascii.eqb c "("
  | None => false
  end.

(** [.+?(?=\))] tried at the head of [s]: the shortest non-empty run of
    characters other than line feeds that stands before a closing
    bracket. *)
Fixpoint lazy_dots_before_close (s : list ascii) : option (list ascii) :=
  match s with
  | [] => None
  | c :: r =>
      if is_newline c then None
      else if close_ahead r then Some [c]
           else cons c <$> lazy_dots_before_close r
  end.

(** [re.search] tries the positions from left to right.  [prev] is the
    character before the head of [s], if there is one. *)
Fixpoint search_from (prev : option ascii) (s : list ascii)
  : option (list ascii) :=
  let here := if open_behind prev then lazy_dots_before_close s else None in
  match here with
  | Some m => Some m
  | None =>
      match s with
      | [] => None
      | c :: r => search_from (Some c) r
      end
  end.

(** [re.search(r"(?<=\().+?(?=\))", s)], with [group(0)] of the match. *)
Definition search_country (s : string) : option string :=
  string_of_list_ascii <$> search_from None (list_ascii_of_string s).

End Re.

(** ** The scraper: [scrape_reviews.py] *)

(** A review is a Python dictionary from field names to strings. *)
Abbreviation review := (gmap string string).

(** What the scraper prints. *)
Inductive event : Type :=
| RequestFailed (page_url : string)
| ErrorParsingStats
| PrintedReview (r : review)
| ScrapingPage (page_num num_pages : Z)
| FailedMainPage (section : string)
| SectionCompleted (section : string).

(** The state a run works on: the standard output and the files under
    [data/]. *)
Record world : Type := World {
  stdout : list event;
  data_dir : gmap string (list review)
}.

(** A computation reads and changes the world and returns or raises. *)
Definition M (A : Type) : Type := world -> world * outcome A.

Definition ret {A} (a : A) : M A := fun w => (w, Returns a).

Definition raise {A} (e : exn) : M A := fun w => (w, Raises e).

Definition bind {A B} (m : M A) (k : A -> M B) : M B :=
  fun w =>
    match m w with
    | (w', Returns a) => k a w'
    | (w', Raises e) => (w', Raises e)
    end.

Notation "'let*' x ':=' m 'in' k" := (bind m (fun x => k))
  (at level 10, x name, m at level 100, k at level 200).
Notation "m ';;;' k" := (bind m (fun _ => k))
  (at level 100, k at level 200, right associativity).

Definition print (e : event) : M unit :=
  fun w => (World (stdout w ++ [e]) (data_dir w), Returns tt).

Definition to_csv (path : string) (rows : list review) : M unit :=
  fun w => (World (stdout w) (<[path := rows]> (data_dir w)), Returns tt).

(** [for x in xs: body x] *)
Fixpoint for_each {A} (xs : list A) (body : A -> M unit) : M unit :=
  match xs with
  | [] => ret tt
  | x :: r => body x ;;; for_each r body
  end.

Module Scraper.
Import Soup.

Definition NA : string := "N/A".

Definition BASE_URL (section : string) (page_num : Z) : string :=
  "https://www.airlinequality.com/" +:+ section
  +:+ "-reviews/british-airways/page/" +:+ PyStr.str_of_Z page_num
  +:+ "/?sortby=post_date%3ADesc&pagesize=100".

(** Line 54: [review_block.find("time").get("datetime", "N/A")]. *)
Definition extract_date (review_block : node) : outcome string :=
  match find review_block (Some "time") NoFilter with
  | Some t => Returns (get t "datetime" NA)
  | None => Raises AttributeError
  end.

(** Lines 57 to 60.  A tag is always true, so [not rating] holds only
    for [None]. *)
Definition extract_rating (review_block : node) : string :=
  let rating := find review_block (Some "span") (AttrIs "itemprop" "ratingValue") in
  let rating :=
    match rating with
    | Some r => Some r
    | None => find review_block (Some "div") (ClassIs "rating-10")
    end in
  match rating with
  | Some r => PyStr.strip (text r)
  | None => NA
  end.

(** [x.text.strip() if x else "N/A"] *)
Definition text_or_NA (x : option node) : string :=
  match x with
  | Some e => PyStr.strip (text e)
  | None => NA
  end.

Definition extract_title (review_block : node) : string :=
  text_or_NA (find review_block (Some "h2") (ClassIs "text_header")).

Definition extract_author (review_block : node) : string :=
  text_or_NA (find review_block (Some "span") (AttrIs "itemprop" "name")).

(** Lines 73 to 75, on the text of the status line. *)
Definition country_of_status (status : string) : string :=
  let user_info_text := PyStr.strip status in
  match Re.search_country user_info_text with
  | Some country => country
  | None => NA
  end.

(** Lines 71 to 77. *)
Definition extract_country (review_block : node) : string :=
  match find review_block (Some "h3") (ClassIs "userStatusWrapper") with
  | Some user_info => country_of_status (text user_info)
  | None => NA
  end.

Definition extract_body (review_block : node) : string :=
  text_or_NA (find review_block (Some "div") (AttrIs "itemprop" "reviewBody")).

(** Lines 51 to 81: the six core fields, set one after the other. *)
Definition core_fields (review_block : node) : outcome review :=
  match extract_date review_block with
  | Raises e => Raises e
  | Returns date =>
      Returns (<["Review" := extract_body review_block]>
               (<["Country" := extract_country review_block]>
                (<["Author" := extract_author review_block]>
                 (<["Title" := extract_title review_block]>
                  (<["Rating" := extract_rating review_block]>
                   (<["Date" := date]> ∅))))))
  end.

(** Lines 92 and 93: the value stored for a value cell. *)
Definition stat_value (cell : node) : string :=
  let value_text := PyStr.strip (text cell) in
  if String.eqb value_text "12345"
  then PyStr.str_of_nat (length (find_all cell (Some "span") (ClassIs "star fill")))
  else value_text.

(** Lines 87 to 95: one row of the ratings table.  [cells[0]] and
    [cells[1]] raise [IndexError] out of range. *)
Definition stat_row (stat : node) (r : review) : outcome review :=
  let cells := findChildren stat in
  match cells !! 0%nat with
  | None => Raises IndexError
  | Some label_cell =>
      let label_text := PyStr.strip (text label_cell) in
      match cells !! 1%nat with
      | None => Raises IndexError
      | Some value_cell => Returns (<[label_text := stat_value value_cell]> r)
      end
  end.

(** Lines 86 to 95: the loop changes the dictionary in place, so the
    rows set before a failure stay set. *)
Fixpoint stats_loop (review_stats : list node) (r : review)
  : review * outcome unit :=
  match review_stats with
  | [] => (r, Returns tt)
  | stat :: rest =>
      match stat_row stat r with
      | Returns r' => stats_loop rest r'
      | Raises e => (r, Raises e)
      end
  end.

(** Line 85 and the loop: the body of the [try]. *)
Definition stats_body (review_block : node) (r : review)
  : review * outcome unit :=
  match find review_block (Some "table") (ClassIs "review-ratings") with
  | None => (r, Raises AttributeError)
  | Some table => stats_loop (find_all table (Some "tr") NoFilter) r
  end.

(** Lines 84 to 98: the [try] with its one handler, for
    [AttributeError]. *)
Definition extract_stats (review_block : node) (r : review) : M review :=
  match stats_body review_block r with
  | (r', Returns _) => print (PrintedReview r') ;;; ret r'
  | (r', Raises AttributeError) => print ErrorParsingStats ;;; ret r'
  | (_, Raises e) => raise e
  end.

(** Lines 50 to 98: the record of one review fragment. *)
Definition extract_review (review_block : node) : M review :=
  match core_fields review_block with
  | Raises e => raise e
  | Returns r => extract_stats review_block r
  end.

(** Lines 49 to 100: the loop over the fragments of a page. *)
Fixpoint extract_all (blocks : list node) (reviews : list review)
  : M (list review) :=
  match blocks with
  | [] => ret reviews
  | review_block :: rest =>
      let* r := extract_review review_block in
      extract_all rest (reviews ++ [r])
  end.

Section Crawl.

(** [requests.get] followed by [raise_for_status], and the parser:
    [None] is a [RequestException]. *)
Variable fetch : string -> option node.

Definition scrape_reviews (page_url : string) : M (list review) :=
  match fetch page_url with
  | None => print (RequestFailed page_url) ;;; ret []
  | Some soup => extract_all (find_all soup (Some "article") (ClassIs "list-item")) []
  end.

(** [range(1, num_pages + 1)] *)
Definition page_range (num_pages : Z) : list Z :=
  (fun i => Z.of_nat i) <$> seq 1 (Z.to_nat num_pages).

Fixpoint get_all_pages (section : string) (num_pages : Z)
         (pages : list Z) (all_reviews : list review) : M (list review) :=
  match pages with
  | [] => ret all_reviews
  | page_num :: rest =>
      print (ScrapingPage page_num num_pages) ;;;
      let* rs := scrape_reviews (BASE_URL section page_num) in
      get_all_pages section num_pages rest (all_reviews ++ rs)
  end.

Definition get_all_reviews (section : string) (num_pages : Z)
  : M (list review) :=
  get_all_pages section num_pages (page_range num_pages) [].

(** [nav_items[-2]] *)
Definition second_to_last {A} (l : list A) : outcome A :=
  if (2 <=? length l)%nat
  then match l !! (length l - 2)%nat with
       | Some x => Returns x
       | None => Raises IndexError
       end
  else Raises IndexError.

(** Lines 140 to 143: the number of pages read off the first page. *)
Definition discover_num_pages (soup : node) : outcome Z :=
  match find soup (Some "article") (ClassIs "comp_reviews-pagination") with
  | None => Raises AttributeError
  | Some page_nav =>
      let nav_items := find_all page_nav (Some "li") NoFilter in
      match second_to_last nav_items with
      | Raises e => Raises e
      | Returns item =>
          match PyStr.int (get_text_strip item) with
          | Some n => Returns n
          | None => Raises ValueError
          end
      end
  end.

(** Lines 131 to 151: one turn of the loop over the sections. *)
Definition crawl_section (section : string) : M unit :=
  match fetch (BASE_URL section 1) with
  | None => print (FailedMainPage section)
  | Some soup =>
      match discover_num_pages soup with
      | Raises e => raise e
      | Returns num_pages =>
          let* reviews := get_all_reviews section num_pages in
          to_csv ("data/" +:+ section +:+ "_reviews.csv") reviews ;;;
          print (SectionCompleted section)
      end
  end.

Definition sections : list string := ["airline"; "seat"; "lounge"].

Definition main : M unit := for_each sections crawl_section.

End Crawl.

End Scraper.

(** ** The tables of pandas *)

Module Pandas.

(** A dataset file after the tokenizer: the record of the header line and
    the records of the data lines, cell by cell.  Blank lines are no
    records, and a file without any line has no header record, written
    [header = []].  A repeated or empty column name is kept as it stands
    here, where pandas appends a counter or writes [Unnamed]; no name the
    program tests is of that kind. *)
Record csv : Type := Csv {
  header : list string;
  rows : list (list string)
}.

(** A column, by the type pandas gives it: text cells, where [None] is the
    missing value NaN; 64-bit integers, signed or unsigned; floats, kept as
    the tokens they were read from, [None] for NaN; booleans, [None] for
    NaN. *)
Inductive series : Type :=
| Object (values : list (option string))
| Int64 (values : list Z)
| Float64 (tokens : list (option string))
| Bool (values : list (option bool)).

Record DataFrame : Type := Frame {
  nrows : nat;
  columns : list (string * series)
}.

(** The cell texts [read_csv] takes for a missing value. *)
Definition na_values : list string :=
  [""; "#N/A"; "#N/A N/A"; "#NA"; "-1.#IND"; "-1.#QNAN"; "-NaN"; "-nan";
   "1.#IND"; "1.#QNAN"; "<NA>"; "N/A"; "NA"; "NULL"; "NaN"; "None"; "n/a";
   "nan"; "null"].

Definition read_cell (s : string) : option string :=
  if existsb (String.eqb s) na_values then None else Some s.

(** *** The types of the columns *)

(** The white space of the tokenizer: the space and TAB to CR. *)
Definition c_isspace (c : ascii) : bool :=
  let n := nat_of_ascii c in
  (n =? 32)%nat || ((9 <=? n)%nat && (n <=? 13)%nat).

Fixpoint skip_spaces (s : list ascii) : list ascii :=
  match s with
  | c :: r => if c_isspace c then skip_spaces r else s
  | [] => []
  end.

(** The digits at the head of [s] and what follows them. *)
Fixpoint span_digits (s : list ascii) : list ascii * list ascii :=
  match s with
  | c :: r =>
      if PyStr.is_digit c
      then let '(ds, rest) := span_digits r in (c :: ds, rest)
      else ([], s)
  | [] => ([], [])
  end.

Definition digits_value (ds : list ascii) : Z :=
  fold_left (fun acc c => 10 * acc + PyStr.digit_val c) ds 0.

Definition starts_with (c : ascii) (s : list ascii) : bool :=
  match s with
  | x :: _ => Ascii.eqb x c
  | [] => false
  end.

(** One sign, if there is one, taken off the head. *)
Definition skip_sign (s : list ascii) : list ascii :=
  if starts_with "-" s || starts_with "+" s then tail s else s.

(** An integer token: white space, one sign, digits, white space. *)
Definition int_token (t : string) : option Z :=
  let s := skip_spaces (list_ascii_of_string t) in
  let '(ds, rest) := span_digits (skip_sign s) in
  match ds, skip_spaces rest with
  | _ :: _, [] =>
      Some (if starts_with "-" s then - digits_value ds else digits_value ds)
  | _, _ => None
  end.

Definition lower (c : ascii) : ascii :=
  let n := nat_of_ascii c in
  if (65 <=? n)%nat && (n <=? 90)%nat then ascii_of_nat (n + 32) else c.

Definition lower_string (t : string) : string :=
  string_of_list_ascii (List.map lower (list_ascii_of_string t)).

(** The names of the infinities, read whatever the case. *)
Definition inf_token (t : string) : bool :=
  existsb (String.eqb (lower_string t))
          ["inf"; "+inf"; "-inf"; "infinity"; "+infinity"; "-infinity"].

(** A float token: white space, one sign, digits with at most one point
    and at least one digit, an exponent with at least one digit, white
    space; or the name of an infinity. *)
Definition float_token (t : string) : bool :=
  inf_token t
  || let s := skip_sign (skip_spaces (list_ascii_of_string t)) in
     let '(whole, r1) := span_digits s in
     let '(frac, r2) := if starts_with "." r1 then span_digits (tail r1) else ([], r1) in
     let r3 :=
       if starts_with "e" r2 || starts_with "E" r2
       then let '(ex, r) := span_digits (skip_sign (tail r2)) in
            match ex with
            | [] => r2
            | _ :: _ => r
            end
       else r2 in
     negb (Nat.eqb (length whole + length frac) 0)
     && match skip_spaces r3 with
        | [] => true
        | _ :: _ => false
        end.

Definition bool_token (t : string) : option bool :=
  if existsb (String.eqb t) ["True"; "TRUE"; "true"] then Some true
  else if existsb (String.eqb t) ["False"; "FALSE"; "false"] then Some false
  else None.

Inductive scan : Type :=
| Values (vs : list (option Z))
| Invalid
| Overflow.

(** The pass that tries signed 64-bit integers, token after token: it
    stops at the first token that is no integer, or at the first integer
    out of range. *)
Fixpoint scan_int64 (cells : list (option string)) : scan :=
  match cells with
  | [] => Values []
  | None :: r =>
      match scan_int64 r with
      | Values vs => Values (None :: vs)
      | other => other
      end
  | Some t :: r =>
      match int_token t with
      | None => Invalid
      | Some z =>
          if (- 2 ^ 63 <=? z) && (z <? 2 ^ 63)
          then match scan_int64 r with
               | Values vs => Values (Some z :: vs)
               | other => other
               end
          else Overflow
      end
  end.

(** The pass that tries unsigned 64-bit integers after an overflow.  A
    missing value or a token that starts with a minus sign is noted and
    passed over; the pass stops at the first other token that is no
    integer, or at the first integer out of range.  Noted tokens make the
    column text in the end. *)
Fixpoint scan_uint64 (cells : list (option string)) : scan :=
  match cells with
  | [] => Values []
  | None :: r =>
      match scan_uint64 r with
      | Values vs => Values (None :: vs)
      | other => other
      end
  | Some t :: r =>
      if starts_with "-" (skip_spaces (list_ascii_of_string t))
      then match scan_uint64 r with
           | Values vs => Values (None :: vs)
           | other => other
           end
      else match int_token t with
           | None => Invalid
           | Some z =>
               if z <? 2 ^ 64
               then match scan_uint64 r with
                    | Values vs => Values (Some z :: vs)
                    | other => other
                    end
               else Overflow
           end
  end.

Definition all_present {A} (vs : list (option A)) : option (list A) :=
  mapM id vs.

Definition present_tokens (cells : list (option string)) : list string :=
  omap id cells.

(** The floats, then the booleans, then text. *)
Definition convert_float_bool (cells : list (option string)) : series :=
  if forallb float_token (present_tokens cells) then Float64 cells
  else match all_present (bool_token <$> present_tokens cells) with
       | Some _ =>
           Bool ((fun cell : option string => cell ≫= bool_token) <$> cells)
       | None => Object cells
       end.

(** The type of a column, from its cells after the missing values were
    told: integers first; integers with missing values become floats;
    without any row the column is text. *)
Definition convert (cells : list (option string)) : series :=
  match cells with
  | [] => Object []
  | _ :: _ =>
      match scan_int64 cells with
      | Values vs =>
          match all_present vs with
          | Some zs => Int64 zs
          | None => Float64 cells
          end
      | Invalid => convert_float_bool cells
      | Overflow =>
          match scan_uint64 cells with
          | Values vs =>
              match all_present vs with
              | Some zs => Int64 zs
              | None => Object cells
              end
          | Invalid => convert_float_bool cells
          | Overflow => Object cells
          end
      end
  end.

(** [pd.read_csv].  An empty file raises.  The first data line may be
    longer than the header: its leading cells, and those of every line,
    then make the index and are no columns.  A later line longer than that
    raises; a line that ends early has missing values there. *)
Definition read_csv (f : csv) : outcome DataFrame :=
  match header f with
  | [] => Raises EmptyDataError
  | _ :: _ =>
      let width :=
        Nat.max (length (header f))
                match rows f with
                | [] => 0%nat
                | first :: _ => length first
                end in
      if existsb (fun row => (width <? length row)%nat) (rows f)
      then Raises ParserError
      else
        let lead := (width - length (header f))%nat in
        Returns
          (Frame (length (rows f))
                 (imap (fun j name =>
                          (name,
                           convert (List.map (fun row => read_cell (nth (lead + j) row ""))
                                             (rows f))))
                       (header f)))
  end.

(** [name in df.columns] *)
Definition has_column (df : DataFrame) (name : string) : bool :=
  existsb (fun c => String.eqb (fst c) name) (columns df).

(** [df[name]] *)
Definition column (df : DataFrame) (name : string) : option series :=
  snd <$> List.find (fun c => String.eqb (fst c) name) (columns df).

(** [series + "text"]: on a text series a missing value stays missing;
    numbers and booleans do not add to text. *)
Definition add_str (s : series) (suffix : string) : outcome (list (option string)) :=
  match s with
  | Object vs =>
      Returns (List.map (fun v : option string =>
                           match v with
                           | Some a => Some (a +:+ suffix)
                           | None => None
                           end) vs)
  | _ => Raises TypeError
  end.

(** Which rows of a series hold a value. *)
Definition holds (s : series) : list bool :=
  match s with
  | Object vs => (fun v : option string => bool_decide (is_Some v)) <$> vs
  | Int64 vs => (fun _ => true) <$> vs
  | Float64 vs => (fun v : option string => bool_decide (is_Some v)) <$> vs
  | Bool vs => (fun v : option bool => bool_decide (is_Some v)) <$> vs
  end.

(** [left + right] for a text series on the left: missing on either side
    gives missing; a text and a number or a boolean in one row do not
    add. *)
Definition add_series (lhs : list (option string)) (rhs : series)
  : outcome (list (option string)) :=
  match rhs with
  | Object rs =>
      Returns (zip_with (fun l r =>
                           match l, r with
                           | Some a, Some b => Some (a +:+ b)
                           | _, _ => None
                           end) lhs rs)
  | _ =>
      if existsb (fun both => both)
                 (zip_with (fun (l : option string) (r : bool) =>
                              bool_decide (is_Some l) && r) lhs (holds rhs))
      then Raises TypeError
      else Returns ((fun _ => None) <$> lhs)
  end.

Fixpoint index_of (k : string) (l : list string) : option nat :=
  match l with
  | [] => None
  | x :: r => if String.eqb x k then Some 0%nat else S <$> index_of k r
  end.

(** [pd.factorize(values)[0]], scanning from the top with the distinct
    values met so far: a value gets the position of its first
    appearance among them, a missing value gets the sentinel [-1]. *)
Fixpoint factorize_from (uniques : list string) (values : list (option string))
  : list Z :=
  match values with
  | [] => []
  | None :: r => (-1) :: factorize_from uniques r
  | Some k :: r =>
      match index_of k uniques with
      | Some i => Z.of_nat i :: factorize_from uniques r
      | None => Z.of_nat (length uniques) :: factorize_from (uniques ++ [k]) r
      end
  end.

Definition factorize (values : list (option string)) : list Z :=
  factorize_from [] values.

(** [df[name] = s]: an existing column is replaced where it stands, a
    new one goes last. *)
Fixpoint set_column (cols : list (string * series)) (name : string) (s : series)
  : list (string * series) :=
  match cols with
  | [] => [(name, s)]
  | c :: r =>
      if String.eqb (fst c) name then (name, s) :: r
      else c :: set_column r name s
  end.

(** [df.drop(columns=[name])] *)
Definition drop (df : DataFrame) (name : string) : DataFrame :=
  Frame (nrows df)
        (List.filter (fun c => negb (String.eqb (fst c) name)) (columns df)).

Section Writer.

(** The text [to_csv] writes for the float read from a token.  Floats are
    outside this development: their rendering is taken as given. *)
Variable float_repr : string -> string.

Definition render (s : series) (i : nat) : string :=
  match s with
  | Object vs =>
      match vs !! i with
      | Some (Some text) => text
      | _ => ""
      end
  | Int64 vs =>
      match vs !! i with
      | Some z => PyStr.str_of_Z z
      | None => ""
      end
  | Float64 vs =>
      match vs !! i with
      | Some (Some token) => float_repr token
      | _ => ""
      end
  | Bool vs =>
      match vs !! i with
      | Some (Some true) => "True"
      | Some (Some false) => "False"
      | _ => ""
      end
  end.

(** [df.to_csv(path, index=False)]: the table written. *)
Definition to_csv (df : DataFrame) : csv :=
  Csv (List.map fst (columns df))
      (List.map (fun i => List.map (fun c => render (snd c) i) (columns df))
                (seq 0 (nrows df))).

End Writer.

End Pandas.

(** ** The pseudonymizer: [pseudonymize.py] *)

Module Pseudonymize.
Import Pandas.

Inductive level : Type := INFO | WARNING | ERROR.

(** The state of a run: the log and the files. *)
Record state : Type := State {
  log : list (level * string);
  disk : gmap string csv
}.

Definition logging (l : level) (msg : string) (st : state) : state :=
  State (log st ++ [(l, msg)]) (disk st).

(** Line 21, right of the assignment:
    [pd.factorize(df["Author"] + "|" + df["Country"])[0]]. *)
Definition author_ids (df : DataFrame) : outcome (list Z) :=
  match column df "Author", column df "Country" with
  | Some author, Some country =>
      match add_str author "|" with
      | Raises e => Raises e
      | Returns tagged =>
          match add_series tagged country with
          | Returns keys => Returns (factorize keys)
          | Raises e => Raises e
          end
      end
  | _, _ => Raises KeyError
  end.

(** Lines 21 and 22, up to the writing: the frame with its [author_id]
    column and without its Author column. *)
Definition pseudonymized (df : DataFrame) : outcome DataFrame :=
  match author_ids df with
  | Raises e => Raises e
  | Returns ids =>
      Returns (drop (Frame (nrows df) (set_column (columns df) "author_id" (Int64 ids)))
                    "Author")
  end.

Section Run.

Variable float_repr : string -> string.

(** Lines 16 to 25.  Whatever is raised inside the [try], by the reading
    of the file as by the lines after it, is logged as an error by the
    handler of line 24; the text of the exception, which ends the message,
    is left out. *)
Definition process_dataset (filepath : string) (st : state) : state :=
  let failed := logging ERROR ("Error processing " +:+ filepath) st in
  match disk st !! filepath with
  | None => failed
  | Some file =>
      match read_csv file with
      | Raises _ => failed
      | Returns df =>
          if negb (has_column df "Author") || negb (has_column df "Country")
          then logging WARNING ("Skipping " +:+ filepath +:+ ": missing required columns.") st
          else
            match pseudonymized df with
            | Raises _ => failed
            | Returns out =>
                let written := State (log st) (<[filepath := to_csv float_repr out]> (disk st)) in
                logging INFO ("Pseudonymization of " +:+ filepath +:+ " complete.") written
            end
      end
  end.

(** [filename.endswith(suffix)] *)
Definition endswith (s suffix : string) : bool :=
  let n := String.length s in
  let m := String.length suffix in
  (m <=? n)%nat && String.eqb (substring (n - m) m s) suffix.

(** Lines 29 to 31, over the names [os.listdir("data")] gives. *)
Fixpoint main (listing : list string) (st : state) : state :=
  match listing with
  | [] => st
  | filename :: rest =>
      if endswith filename "_reviews.csv"
      then main rest (process_dataset ("data/" +:+ filename) st)
      else main rest st
  end.

End Run.

End Pseudonymize.

(** * Properties *)

(** ** The field extractor: failures *)

Section ExtractorFailures.
Import Soup Scraper.

(** The label and the value a row of the ratings table contributes, when
    it has its two cells. *)
Definition row_entry (stat : node) : option (string * string) :=
  match findChildren stat !! 0%nat, findChildren stat !! 1%nat with
  | Some label_cell, Some value_cell =>
      Some (PyStr.strip (text label_cell), stat_value value_cell)
  | _, _ => None
  end.

Lemma stat_row_entry stat (r : review) :
  stat_row stat r =
    match row_entry stat with
    | Some (label, value) => Returns (<[label := value]> r)
    | None => Raises IndexError
    end.
Proof.
  unfold stat_row, row_entry.
  destruct (findChildren stat !! 0%nat); [|reflexivity].
  destruct (findChildren stat !! 1%nat); reflexivity.
Qed.

Lemma row_entry_short stat :
  (length (findChildren stat) < 2)%nat -> row_entry stat = None.
Proof.
  intros Hlen. unfold row_entry.
  destruct (findChildren stat) as [|c0 [|c1 cells]]; simpl in *;
    [reflexivity | reflexivity | lia].
Qed.

(** The loop over the rows raises nothing but [IndexError]. *)
Lemma stats_loop_outcome rows (r : review) :
  (exists r', stats_loop rows r = (r', Returns tt))
  \/ (exists r', stats_loop rows r = (r', Raises IndexError)).
Proof.
  revert r. induction rows as [|stat rows IH]; intros r; simpl.
  - left. eauto.
  - rewrite stat_row_entry. destruct (row_entry stat) as [[label value]|].
    + apply IH.
    + right. eauto.
Qed.

(** One row without its two cells makes the loop raise. *)
Lemma stats_loop_short_row rows (r : review) stat :
  In stat rows -> row_entry stat = None ->
  exists r', stats_loop rows r = (r', Raises IndexError).
Proof.
  revert r. induction rows as [|s rows IH]; intros r Hin Hshort.
  - destruct Hin.
  - simpl. rewrite stat_row_entry.
    destruct (row_entry s) as [[label value]|] eqn:Hs.
    + destruct Hin as [->|Hin]; [congruence|]. now apply IH.
    + eauto.
Qed.

End ExtractorFailures.

Module Fixtures.

Definition elem (name : string) (contents : list node) : node :=
  Tag name [] ∅ contents.

Definition txt (s : string) : node := NavigableString s.

(** A review fragment with every designated element but the [time]
    element. *)
Definition fragment_without_time : node :=
  Tag "article" ["list-item"] ∅
    [ Tag "span" [] {[ "itemprop" := "ratingValue" ]} [txt "9"];
      Tag "h2" ["text_header"] ∅ [txt "Great flight"];
      Tag "span" [] {[ "itemprop" := "name" ]} [txt "John D"];
      Tag "h3" ["userStatusWrapper"] ∅ [txt "John D (United Kingdom)"];
      Tag "div" [] {[ "itemprop" := "reviewBody" ]} [txt "Good."];
      Tag "table" ["review-ratings"] ∅
        [ elem "tr" [elem "td" [txt "Route"]; elem "td" [txt "LHR to JFK"]] ] ].

(** A complete fragment whose ratings table has a row with one cell. *)
Definition fragment_with_short_row : node :=
  Tag "article" ["list-item"] ∅
    [ Tag "time" [] {[ "datetime" := "2024-01-02" ]} [txt "2nd January 2024"];
      Tag "span" [] {[ "itemprop" := "ratingValue" ]} [txt "9"];
      Tag "h2" ["text_header"] ∅ [txt "Great flight"];
      Tag "span" [] {[ "itemprop" := "name" ]} [txt "John D"];
      Tag "h3" ["userStatusWrapper"] ∅ [txt "John D (United Kingdom)"];
      Tag "div" [] {[ "itemprop" := "reviewBody" ]} [txt "Good."];
      Tag "table" ["review-ratings"] ∅
        [ elem "tr" [elem "td" [txt "Route"]; elem "td" [txt "LHR to JFK"]];
          elem "tr" [elem "td" [txt "Recommended"]] ] ].

(** A first page without the pagination block. *)
Definition page_without_pagination : node :=
  Tag "[document]" [] ∅ [ elem "html" [ elem "body" [ fragment_with_short_row ] ] ].

Definition empty_world : world := World [] ∅.

End Fixtures.

Section ExtractorFailureTheorems.
Import Soup Scraper Fixtures.

(** C2.  A fragment without a [time] element makes the field extractor
    raise [AttributeError] at the Date rule (line 54): no record is
    returned, nothing is printed, and the other five rules, which each
    guard against a missing element, are never reached. *)
Theorem extract_review_raises_without_time (review_block : node) (w : world) :
  find review_block (Some "time") NoFilter = None ->
  extract_review review_block w = (w, Raises AttributeError).
Proof.
  intros Htime. unfold extract_review, core_fields, extract_date.
  rewrite Htime. reflexivity.
Qed.

Lemma extract_review_raises_without_time_witness :
  find fragment_without_time (Some "time") NoFilter = None
  /\ extract_review fragment_without_time empty_world
     = (empty_world, Raises AttributeError).
Proof.
  split; [reflexivity|].
  apply (extract_review_raises_without_time fragment_without_time empty_world).
  reflexivity.
Defined.

(** C4.  When the ratings table has a row with fewer than two tags below
    it, the [IndexError] of [cells[0]] or [cells[1]] is not an
    [AttributeError]: the handler of line 97 lets it through, nothing is
    logged and the extractor returns no record. *)
Theorem extract_review_raises_on_short_row
        (review_block table stat : node) (w : world) :
  find review_block (Some "time") NoFilter <> None ->
  find review_block (Some "table") (ClassIs "review-ratings") = Some table ->
  In stat (find_all table (Some "tr") NoFilter) ->
  (length (findChildren stat) < 2)%nat ->
  extract_review review_block w = (w, Raises IndexError).
Proof.
  intros Htime Htable Hin Hshort.
  unfold extract_review, core_fields, extract_date.
  destruct (find review_block (Some "time") NoFilter) as [t|]; [|congruence].
  unfold extract_stats, stats_body. rewrite Htable.
  destruct (stats_loop_short_row _
              (<["Review" := extract_body review_block]>
               (<["Country" := extract_country review_block]>
                (<["Author" := extract_author review_block]>
                 (<["Title" := extract_title review_block]>
                  (<["Rating" := extract_rating review_block]>
                   (<["Date" := get t "datetime" NA]> ∅))))))
              stat Hin (row_entry_short _ Hshort)) as [r' ->].
  reflexivity.
Qed.

Lemma extract_review_raises_on_short_row_witness :
  extract_review fragment_with_short_row empty_world
  = (empty_world, Raises IndexError).
Proof.
  apply (extract_review_raises_on_short_row
           fragment_with_short_row
           (Tag "table" ["review-ratings"] ∅
              [ elem "tr" [elem "td" [txt "Route"]; elem "td" [txt "LHR to JFK"]];
                elem "tr" [elem "td" [txt "Recommended"]] ])
           (elem "tr" [elem "td" [txt "Recommended"]])
           empty_world).
  - vm_compute. discriminate.
  - reflexivity.
  - vm_compute. right. left. reflexivity.
  - vm_compute. lia.
Defined.

End ExtractorFailureTheorems.

(** ** The pagination discovery *)

Module PaginationFixtures.
Import Fixtures.

Definition page_link (label : string) : node :=
  elem "li" [ elem "a" [txt label] ].

Definition pagination (items : list node) : node :=
  Tag "article" ["comp"; "comp_reviews-pagination"; "querylist-pagination"] ∅
    [ elem "ul" items ].

Definition document (body : list node) : node :=
  Tag "[document]" [] ∅ [ elem "html" [ elem "body" body ] ].

(** The first page of a category of seven pages: the page numbers, then
    the control for the next page. *)
Definition seven_pages : node :=
  document
    [ pagination
        [ page_link "1"; page_link "2"; page_link "3"; page_link "4";
          page_link "5"; page_link "6"; page_link "7"; page_link ">>" ] ].

(** Pagination blocks that are there but malformed. *)
Definition one_item : node := document [ pagination [ page_link "1" ] ].

Definition no_number : node :=
  document [ pagination [ page_link "<<"; page_link "more"; page_link ">>" ] ].

(** Pagination blocks whose entry before the last one reads as a count
    that is not positive. *)
Definition zero_count : node :=
  document [ pagination [ page_link "1"; page_link "0"; page_link ">>" ] ].

Definition negative_count : node :=
  document [ pagination [ page_link "1"; page_link "-3"; page_link ">>" ] ].

Definition always (soup : node) : string -> option node := fun _ => Some soup.

End PaginationFixtures.

Section Pagination.
Import Soup Scraper Fixtures PaginationFixtures.

Lemma second_to_last_app {A} (before : list A) (x y : A) :
  second_to_last (before ++ [x; y]) = Returns x.
Proof.
  unfold second_to_last. rewrite length_app. cbn [length].
  destruct (Nat.leb_spec 2 (length before + 2)) as [_|Hlt]; [|lia].
  replace (length before + 2 - 2)%nat with (length before + 0)%nat by lia.
  rewrite lookup_app_r by lia.
  replace (length before + 0 - length before)%nat with 0%nat by lia.
  reflexivity.
Qed.

(** C7 as the specification words it: the discovery returns a positive
    count. *)
Definition returns_positive_count (soup : node) : Prop :=
  exists n, discover_num_pages soup = Returns n /\ 0 < n.

(** C7, the counterexample.  A pagination block whose entry before the
    last one reads [0] gives the count 0, and one that reads [-3] gives
    the count -3: the count is not checked to be positive. *)
Lemma zero_count_is_returned :
  find zero_count (Some "article") (ClassIs "comp_reviews-pagination") <> None
  /\ discover_num_pages zero_count = Returns 0
  /\ discover_num_pages negative_count = Returns (-3)
  /\ ~ returns_positive_count zero_count.
Proof.
  split; [vm_compute; discriminate|]. split; [reflexivity|]. split; [reflexivity|].
  intros (n & Hn & Hpos). vm_compute in Hn. injection Hn as <-. lia.
Qed.

(** C7, amended.  With a pagination block on the first page whose [li]
    entries end with an entry and one last entry after it, the number of
    pages is the integer [int] reads from the text of that entry before
    the last one, whatever its sign; the first page of a category of seven
    pages gives 7. *)
Theorem discover_num_pages_second_to_last
        (soup page_nav : node) (before : list node) (item next : node) (n : Z) :
  find soup (Some "article") (ClassIs "comp_reviews-pagination") = Some page_nav ->
  find_all page_nav (Some "li") NoFilter = (before ++ [item; next])%list ->
  PyStr.int (get_text_strip item) = Some n ->
  discover_num_pages soup = Returns n.
Proof.
  intros Hnav Hitems Hint. unfold discover_num_pages.
  rewrite Hnav, Hitems, second_to_last_app, Hint. reflexivity.
Qed.

Lemma discover_num_pages_second_to_last_witness :
  discover_num_pages seven_pages = Returns 7.
Proof.
  apply (discover_num_pages_second_to_last
           seven_pages
           (pagination
              [ page_link "1"; page_link "2"; page_link "3"; page_link "4";
                page_link "5"; page_link "6"; page_link "7"; page_link ">>" ])
           [ page_link "1"; page_link "2"; page_link "3"; page_link "4";
             page_link "5"; page_link "6" ]
           (page_link "7") (page_link ">>") 7).
  - reflexivity.
  - reflexivity.
  - reflexivity.
Defined.

(** The three ways the discovery fails. *)
Lemma discover_num_pages_absent soup :
  find soup (Some "article") (ClassIs "comp_reviews-pagination") = None ->
  discover_num_pages soup = Raises AttributeError.
Proof. intros H. unfold discover_num_pages. now rewrite H. Qed.

Example discover_num_pages_one_item :
  discover_num_pages one_item = Raises IndexError.
Proof. reflexivity. Qed.

Example discover_num_pages_no_number :
  discover_num_pages no_number = Raises ValueError.
Proof. reflexivity. Qed.

(** A failed discovery ends the turn of its section with the exception,
    the world as it was. *)
Lemma crawl_section_raises fetch section soup e (w : world) :
  fetch (BASE_URL section 1) = Some soup ->
  discover_num_pages soup = Raises e ->
  crawl_section fetch section w = (w, Raises e).
Proof.
  intros Hfetch Hdisc. unfold crawl_section. rewrite Hfetch, Hdisc.
  reflexivity.
Qed.

(** C3.  When the first page of the first category has no pagination
    block, [main] ends with the [AttributeError] of line 142: nothing is
    printed, no file is written, and the categories after it are not
    crawled. *)
Theorem main_raises_without_pagination
        (fetch : string -> option node) (soup : node) (w : world) :
  fetch (BASE_URL "airline" 1) = Some soup ->
  find soup (Some "article") (ClassIs "comp_reviews-pagination") = None ->
  main fetch w = (w, Raises AttributeError).
Proof.
  intros Hfetch Hnav. unfold main, sections. simpl. unfold bind at 1.
  rewrite (crawl_section_raises fetch "airline" soup AttributeError w Hfetch
             (discover_num_pages_absent soup Hnav)).
  reflexivity.
Qed.

Lemma main_raises_without_pagination_witness :
  main (always page_without_pagination) empty_world
  = (empty_world, Raises AttributeError).
Proof.
  apply (main_raises_without_pagination
           (always page_without_pagination) page_without_pagination empty_world).
  - reflexivity.
  - reflexivity.
Defined.

(** The malformed blocks end [main] the same way. *)
Example main_raises_on_one_item :
  main (always one_item) empty_world = (empty_world, Raises IndexError).
Proof. reflexivity. Qed.

Example main_raises_on_no_number :
  main (always no_number) empty_world = (empty_world, Raises ValueError).
Proof. reflexivity. Qed.

(** The sibling path: a failed request for the first page prints the
    diagnostic and goes on with the next category. *)
Lemma crawl_section_request_failed fetch section (w : world) :
  fetch (BASE_URL section 1) = None ->
  crawl_section fetch section w
  = (World (stdout w ++ [FailedMainPage section]) (data_dir w), Returns tt).
Proof. intros H. unfold crawl_section. rewrite H. reflexivity. Qed.

End Pagination.

(** ** The ratings table *)

Section RatingsTable.
Import Soup Scraper.

(** [review[label] = value] for every entry in turn. *)
Definition assign_all (r : review) (entries : list (string * string)) : review :=
  foldl (fun acc e => <[fst e := snd e]> acc) r entries.

(** A loop that returns has found the two cells of every row and has
    assigned the entries from the first row to the last. *)
Lemma stats_loop_returns rows (r r' : review) :
  stats_loop rows r = (r', Returns tt) ->
  exists entries,
    Forall2 (fun stat e => row_entry stat = Some e) rows entries
    /\ r' = assign_all r entries.
Proof.
  revert r. induction rows as [|stat rows IH]; intros r Hloop; simpl in Hloop.
  - injection Hloop as <-. exists []. split; [constructor | reflexivity].
  - rewrite stat_row_entry in Hloop.
    destruct (row_entry stat) as [[label value]|] eqn:Hrow; [|discriminate].
    destruct (IH _ Hloop) as (entries & Hall & ->).
    exists ((label, value) :: entries). split; [now constructor | reflexivity].
Qed.

Lemma assign_all_untouched (entries : list (string * string)) (r : review) key :
  Forall (fun e => fst e <> key) entries ->
  assign_all r entries !! key = r !! key.
Proof.
  revert r. induction entries as [|[k v] entries IH]; intros r Hall.
  - reflexivity.
  - inversion Hall as [|? ? Hk Hrest]; subst. simpl in *.
    unfold assign_all in *. simpl. rewrite IH by assumption.
    now apply lookup_insert_ne.
Qed.

Lemma assign_all_last (before after : list (string * string)) (r : review) key value :
  Forall (fun e => fst e <> key) after ->
  assign_all r (before ++ (key, value) :: after) !! key = Some value.
Proof.
  intros Hafter. unfold assign_all. rewrite foldl_app. simpl.
  fold (assign_all (<[key := value]> (foldl (fun acc e => <[fst e := snd e]> acc) r before)) after).
  rewrite assign_all_untouched by assumption.
  apply lookup_insert_eq.
Qed.

(** Among entries that hold [key], one is the last. *)
Lemma last_entry_with key (entries : list (string * string)) :
  Exists (fun e => fst e = key) entries ->
  exists before value after,
    entries = (before ++ (key, value) :: after)%list
    /\ Forall (fun e => fst e <> key) after.
Proof.
  induction entries as [|[k v] entries IH]; intros Hex.
  - inversion Hex.
  - destruct (decide (Exists (fun e : string * string => fst e = key) entries))
      as [Hlater|Hnone].
    + destruct (IH Hlater) as (before & value & after & -> & Hafter).
      exists ((k, v) :: before), value, after. split; [reflexivity | assumption].
    + inversion Hex as [? ? Hhere|? ? Hlater]; [|contradiction].
      simpl in Hhere. subst. exists [], v, entries. split; [reflexivity|].
      apply Forall_forall. intros e He Heq. apply Hnone.
      apply Exists_exists. exists e. split; assumption.
Qed.

(** What a returned record went through. *)
Lemma extract_review_returns review_block (w w' : world) (r : review) :
  extract_review review_block w = (w', Returns r) ->
  exists r0,
    core_fields review_block = Returns r0
    /\ ((find review_block (Some "table") (ClassIs "review-ratings") = None
         /\ r = r0 /\ w' = World (stdout w ++ [ErrorParsingStats]) (data_dir w))
        \/ (exists table entries,
              find review_block (Some "table") (ClassIs "review-ratings") = Some table
              /\ Forall2 (fun stat e => row_entry stat = Some e)
                         (find_all table (Some "tr") NoFilter) entries
              /\ r = assign_all r0 entries
              /\ w' = World (stdout w ++ [PrintedReview r]) (data_dir w))).
Proof.
  unfold extract_review. destruct (core_fields review_block) as [r0|e] eqn:Hcore;
    [|discriminate].
  intros Hstats. exists r0. split; [reflexivity|].
  unfold extract_stats, stats_body in Hstats.
  destruct (find review_block (Some "table") (ClassIs "review-ratings")) as [table|].
  - right.
    destruct (stats_loop_outcome (find_all table (Some "tr") NoFilter) r0)
      as [[r' Hloop]|[r' Hloop]]; rewrite Hloop in Hstats.
    + cbv [bind print ret] in Hstats. injection Hstats as <- <-.
      destruct (stats_loop_returns _ _ _ Hloop) as (entries & Hall & ->).
      exists table, entries. repeat split; assumption || reflexivity.
    + discriminate.
  - left. cbv [bind print ret] in Hstats. injection Hstats as <- <-.
    repeat split; reflexivity.
Qed.

End RatingsTable.

Module TableFixtures.
Import Fixtures.

Definition star_fill (label : string) : node :=
  Tag "span" ["star"; "fill"] ∅ [txt label].

Definition star_empty (label : string) : node :=
  Tag "span" ["star"] ∅ [txt label].

(** The star widget as the site draws it: three filled stars of five. *)
Definition three_of_five : node :=
  Tag "td" ["review-rating-stars"; "stars"] ∅
    [ star_fill "1"; star_fill "2"; star_fill "3"; star_empty "4"; star_empty "5" ].

(** A value cell whose text is [12345] with six filled stars below it,
    the sixth without text. *)
Definition six_filled : node :=
  Tag "td" ["review-rating-stars"; "stars"] ∅
    [ star_fill "1"; star_fill "2"; star_fill "3"; star_fill "4"; star_fill "5";
      star_fill "" ].

Definition stars_row : node :=
  elem "tr" [ Tag "td" ["review-rating-header"] ∅ [txt "Seat Comfort"]; three_of_five ].

(** A fragment whose ratings table has a row labelled as the core field
    [Rating]. *)
Definition fragment_with_rating_row : node :=
  Tag "article" ["list-item"] ∅
    [ Tag "time" [] {[ "datetime" := "2024-01-02" ]} [txt "2nd January 2024"];
      Tag "div" ["rating-10"] ∅ [txt " 9/10 "];
      Tag "table" ["review-ratings"] ∅
        [ stars_row;
          elem "tr" [elem "td" [txt "Rating"]; elem "td" [txt "poor"]] ] ].

(** A fragment with the secondary rating display only. *)
Definition fragment_with_secondary_rating : node :=
  Tag "article" ["list-item"] ∅
    [ Tag "time" [] {[ "datetime" := "2024-01-02" ]} [txt "2nd January 2024"];
      Tag "div" ["rating-10"] ∅ [txt " 9/10 "];
      Tag "table" ["review-ratings"] ∅ [ stars_row ] ].

End TableFixtures.

Section RatingsTableTheorems.
Import Soup Scraper Fixtures TableFixtures.

Definition filled_stars (cell : node) : nat :=
  length (find_all cell (Some "span") (ClassIs "star fill")).

(** C5 as the specification words it: on the placeholder text the value
    is the count of filled stars and the count is at most five. *)
Definition star_count_bounded (cell : node) : Prop :=
  PyStr.strip (text cell) = "12345" ->
  stat_value cell = PyStr.str_of_nat (filled_stars cell)
  /\ (filled_stars cell <= 5)%nat.

(** C5, the counterexample: six filled stars under the placeholder text
    are stored as [6]. *)
Lemma six_filled_stars_exceed_bound :
  PyStr.strip (text six_filled) = "12345"
  /\ stat_value six_filled = "6"
  /\ ~ star_count_bounded six_filled.
Proof.
  split; [reflexivity|]. split; [reflexivity|].
  intros Hclaim. destruct (Hclaim eq_refl) as [_ Hbound].
  vm_compute in Hbound. lia.
Qed.

(** C5, amended.  A row with its two cells stores, under the trimmed text
    of the label cell, the decimal numeral of the count of filled stars
    when the trimmed text of the value cell is [12345], whatever the
    count, and the trimmed text itself otherwise. *)
Theorem stat_row_stores (stat label_cell value_cell : node) (r : review) :
  findChildren stat !! 0%nat = Some label_cell ->
  findChildren stat !! 1%nat = Some value_cell ->
  exists stored,
    stat_row stat r = Returns (<[PyStr.strip (text label_cell) := stored]> r)
    /\ (PyStr.strip (text value_cell) = "12345" ->
        stored = PyStr.str_of_nat (filled_stars value_cell))
    /\ (PyStr.strip (text value_cell) <> "12345" ->
        stored = PyStr.strip (text value_cell)).
Proof.
  intros Hlabel Hvalue. exists (stat_value value_cell).
  unfold stat_row. rewrite Hlabel, Hvalue. split; [reflexivity|].
  unfold stat_value, filled_stars.
  destruct (String.eqb_spec (PyStr.strip (text value_cell)) "12345") as [Heq|Hne].
  - split; [reflexivity | congruence].
  - split; [congruence | reflexivity].
Qed.

Lemma stat_row_stores_witness :
  exists stored,
    stat_row stars_row ∅ = Returns (<["Seat Comfort" := stored]> ∅)
    /\ (PyStr.strip (text three_of_five) = "12345" -> stored = "3")
    /\ (PyStr.strip (text three_of_five) <> "12345" ->
        stored = PyStr.strip (text three_of_five)).
Proof.
  apply (stat_row_stores stars_row
           (Tag "td" ["review-rating-header"] ∅ [txt "Seat Comfort"])
           three_of_five ∅); reflexivity.
Defined.

Definition core_field_names : list string :=
  ["Date"; "Rating"; "Title"; "Author"; "Country"; "Review"].

Lemma core_fields_sets_all review_block (r0 : review) field :
  core_fields review_block = Returns r0 ->
  In field core_field_names ->
  is_Some (r0 !! field).
Proof.
  unfold core_fields. destruct (extract_date review_block) as [date|e]; [|discriminate].
  intros [= <-] Hin. simpl in Hin.
  repeat (destruct Hin as [<-|Hin]; [simplify_map_eq; eauto|]). destruct Hin.
Qed.

Definition label_of (stat : node) : option string :=
  (fun c => PyStr.strip (text c)) <$> findChildren stat !! 0%nat.

Lemma row_entry_label stat e : row_entry stat = Some e -> label_of stat = Some (fst e).
Proof.
  unfold row_entry, label_of.
  destruct (findChildren stat !! 0%nat) as [c0|]; [|discriminate].
  destruct (findChildren stat !! 1%nat) as [c1|]; [|discriminate].
  now intros [= <-].
Qed.

Lemma entries_labels rows entries :
  Forall2 (fun stat e => row_entry stat = Some e) rows entries ->
  forall key,
    Forall (fun e : string * string => fst e <> key) entries ->
    Forall (fun stat => label_of stat <> Some key) rows.
Proof.
  induction 1 as [|stat e rows entries Hrow _ IH]; intros key Hall.
  - constructor.
  - inversion Hall as [|? ? Hk Hrest]; subst. constructor; [|now apply IH].
    rewrite (row_entry_label _ _ Hrow). congruence.
Qed.



End RatingsTableTheorems.

(** ** The core fields *)

Section CoreFields.
Import Soup Scraper Fixtures TableFixtures.

(** No row of the ratings table carries [field] as its label. *)
Definition no_row_labelled (field : string) (review_block : node) : Prop :=
  forall table,
    find review_block (Some "table") (ClassIs "review-ratings") = Some table ->
    Forall (fun stat => label_of stat <> Some field)
           (find_all table (Some "tr") NoFilter).

Lemma labels_entries rows entries :
  Forall2 (fun stat e => row_entry stat = Some e) rows entries ->
  forall key,
    Forall (fun stat => label_of stat <> Some key) rows ->
    Forall (fun e : string * string => fst e <> key) entries.
Proof.
  induction 1 as [|stat e rows entries Hrow _ IH]; intros key Hall.
  - constructor.
  - inversion Hall as [|? ? Hk Hrest]; subst. constructor; [|now apply IH].
    rewrite (row_entry_label _ _ Hrow) in Hk. congruence.
Qed.

(** A core field reaches the returned record as the core rule set it,
    unless a row of the ratings table is labelled with its name. *)
Lemma core_field_kept review_block (w w' : world) (r r0 : review) field :
  extract_review review_block w = (w', Returns r) ->
  core_fields review_block = Returns r0 ->
  no_row_labelled field review_block ->
  r !! field = r0 !! field.
Proof.
  intros Hret Hcore Hno.
  destruct (extract_review_returns _ _ _ _ Hret) as (r0' & Hr0 & Hcases).
  assert (r0' = r0) as -> by congruence.
  destruct Hcases as [(_ & -> & _)|(table & entries & Htable & Hall & -> & _)];
    [reflexivity|].
  apply assign_all_untouched.
  eapply labels_entries; [eassumption | now apply Hno].
Qed.

Lemma core_fields_lookup review_block (r0 : review) :
  core_fields review_block = Returns r0 ->
  r0 !! "Rating" = Some (extract_rating review_block)
  /\ r0 !! "Title" = Some (extract_title review_block)
  /\ r0 !! "Author" = Some (extract_author review_block)
  /\ r0 !! "Country" = Some (extract_country review_block)
  /\ r0 !! "Review" = Some (extract_body review_block).
Proof.
  unfold core_fields. destruct (extract_date review_block) as [date|e]; [|discriminate].
  intros [= <-]. repeat split; simplify_map_eq; reflexivity.
Qed.

(** C8, the counterexample.  On a fragment without the primary rating
    element and with the secondary one, whose text is [ 9/10 ] between
    blanks: a row of the ratings table labelled [Rating] leaves its own
    value [poor] in the record; and without such a row the record holds the
    trimmed text [9/10], not the text of the element. *)
Lemma rating_row_replaces_rating :
  find fragment_with_rating_row (Some "span") (AttrIs "itemprop" "ratingValue") = None
  /\ find fragment_with_rating_row (Some "div") (ClassIs "rating-10")
     = Some (Tag "div" ["rating-10"] ∅ [txt " 9/10 "])
  /\ (exists r : review,
         (extract_review fragment_with_rating_row empty_world).2 = Returns r
         /\ r !! "Rating" = Some "poor")
  /\ find fragment_with_secondary_rating (Some "span") (AttrIs "itemprop" "ratingValue")
     = None
  /\ find fragment_with_secondary_rating (Some "div") (ClassIs "rating-10")
     = Some (Tag "div" ["rating-10"] ∅ [txt " 9/10 "])
  /\ (exists r : review,
         (extract_review fragment_with_secondary_rating empty_world).2 = Returns r
         /\ r !! "Rating" = Some "9/10"
         /\ r !! "Rating" <> Some (text (Tag "div" ["rating-10"] ∅ [txt " 9/10 "]))).
Proof.
  split; [reflexivity|]. split; [reflexivity|]. split.
  { eexists. split; reflexivity. }
  split; [reflexivity|]. split; [reflexivity|].
  eexists. split; [reflexivity|]. split; [reflexivity|].
  vm_compute. discriminate.
Qed.

(** C8, amended.  In a returned record, unless a row of the ratings table
    is labelled [Rating], the Rating field is the trimmed text of the
    primary rating element when there is one, else the trimmed text of the
    secondary rating display when there is one, else ["N/A"]. *)
Theorem rating_fallback (review_block : node) (w w' : world) (r : review) :
  extract_review review_block w = (w', Returns r) ->
  no_row_labelled "Rating" review_block ->
  r !! "Rating"
  = Some match find review_block (Some "span") (AttrIs "itemprop" "ratingValue") with
         | Some primary => PyStr.strip (text primary)
         | None =>
             match find review_block (Some "div") (ClassIs "rating-10") with
             | Some secondary => PyStr.strip (text secondary)
             | None => "N/A"
             end
         end.
Proof.
  intros Hret Hno.
  destruct (extract_review_returns _ _ _ _ Hret) as (r0 & Hcore & _).
  rewrite (core_field_kept _ _ _ _ _ _ Hret Hcore Hno).
  destruct (core_fields_lookup _ _ Hcore) as [-> _]. f_equal.
  unfold extract_rating.
  destruct (find review_block (Some "span") (AttrIs "itemprop" "ratingValue"));
    [reflexivity|].
  destruct (find review_block (Some "div") (ClassIs "rating-10")); reflexivity.
Qed.

Lemma rating_fallback_witness :
  exists r : review,
    (extract_review fragment_with_secondary_rating empty_world).2 = Returns r
    /\ r !! "Rating" = Some "9/10".
Proof.
  eexists. split; [reflexivity|].
  apply (rating_fallback
           fragment_with_secondary_rating empty_world
           (extract_review fragment_with_secondary_rating empty_world).1).
  - reflexivity.
  - intros table Htable. vm_compute in Htable. injection Htable as <-.
    repeat constructor. vm_compute. discriminate.
Defined.

End CoreFields.

(** ** The country rule *)

Section CountryRule.
Import Soup Scraper.

Definition no_newline (m : list ascii) : Prop :=
  Forall (fun c => Re.is_newline c = false) m.

(** The characters the regular expression is run on. *)
Definition status_chars (status : string) : list ascii :=
  list_ascii_of_string (PyStr.strip status).

(** After [pre], an opening bracket, the non-empty run [m] without line
    feed and a closing bracket follow in [chars]. *)
Definition opens_country (chars pre m : list ascii) : Prop :=
  exists post,
    chars = (pre ++ "("%char :: m ++ ")"%char :: post)%list
    /\ m <> [] /\ no_newline m.

Lemma lazy_dots_sound s m :
  Re.lazy_dots_before_close s = Some m ->
  exists c rest post,
    s = (c :: rest ++ ")"%char :: post)%list
    /\ m = c :: rest /\ no_newline m /\ ~ In ")"%char rest.
Proof.
  revert m. induction s as [|c r IH]; intros m H; simpl in H; [discriminate|].
  destruct (Re.is_newline c) eqn:Hnl; [discriminate|].
  destruct (Re.close_ahead r) eqn:Hclose.
  - injection H as <-. destruct r as [|c' r']; [discriminate|].
    simpl in Hclose. apply Ascii.eqb_eq in Hclose. subst c'.
    exists c, [], r'. repeat split.
    + constructor; [assumption | constructor].
    + intros [].
  - destruct (Re.lazy_dots_before_close r) as [m'|] eqn:Hr; [|discriminate].
    simpl in H. injection H as <-.
    destruct (IH _ eq_refl) as (c' & rest & post & -> & -> & Hnn & Hnotin).
    exists c, (c' :: rest), post. repeat split.
    + constructor; assumption.
    + intros [Heq|Hin]; [|contradiction]. subst c'.
      simpl in Hclose. discriminate.
Qed.

Lemma lazy_dots_complete c rest post :
  no_newline (c :: rest) ->
  is_Some (Re.lazy_dots_before_close (c :: rest ++ ")"%char :: post)).
Proof.
  revert c. induction rest as [|c' rest IH]; intros c Hnn;
    inversion Hnn as [|? ? Hc Hrest]; subst.
  - simpl. rewrite Hc. eauto.
  - cbn [Re.lazy_dots_before_close app]. rewrite Hc.
    destruct (Re.close_ahead (c' :: rest ++ ")"%char :: post)); [eauto|].
    destruct (IH c' Hrest) as [m Hm].
    cbn [Re.lazy_dots_before_close app] in Hm. rewrite Hm. simpl. eauto.
Qed.

(** A position that [opens_country] is one where the expression
    matches. *)
Lemma opens_country_matches chars pre m :
  opens_country chars pre m ->
  exists post, chars = (pre ++ "("%char :: post)%list
               /\ is_Some (Re.lazy_dots_before_close post).
Proof.
  intros (post & -> & Hne & Hnn). destruct m as [|c rest]; [congruence|].
  exists ((c :: rest) ++ ")"%char :: post)%list. split; [reflexivity|].
  now apply lazy_dots_complete.
Qed.

(** Where the search finds nothing, the expression matches at no
    position. *)
Lemma search_from_none prev s :
  Re.search_from prev s = None ->
  (Re.open_behind prev = true -> Re.lazy_dots_before_close s = None)
  /\ forall pre s', s = (pre ++ "("%char :: s')%list ->
                    Re.lazy_dots_before_close s' = None.
Proof.
  revert prev. induction s as [|c r IH]; intros prev H; simpl in H.
  - split.
    + intros Hopen. rewrite Hopen in H. reflexivity.
    + intros [|? ?] s' Heq; discriminate.
  - destruct (Re.open_behind prev) eqn:Hopen.
    + destruct (Re.is_newline c) eqn:Hnl.
      * specialize (IH _ H) as [IHhere IHlater]. split.
        -- intros _. simpl. now rewrite Hnl.
        -- intros [|p pre] s' Heq; injection Heq as -> ->.
           ++ apply IHhere. reflexivity.
           ++ eapply IHlater. reflexivity.
      * destruct (Re.close_ahead r) eqn:Hclose; [discriminate|].
        destruct (Re.lazy_dots_before_close r) eqn:Hr; [discriminate|].
        simpl in H. specialize (IH _ H) as [_ IHlater]. split.
        -- intros _. simpl. now rewrite Hnl, Hclose, Hr.
        -- intros [|p pre] s' Heq; injection Heq as -> ->.
           ++ exact Hr.
           ++ eapply IHlater. reflexivity.
    + specialize (IH _ H) as [IHhere IHlater]. split; [discriminate|].
      intros [|p pre] s' Heq; injection Heq as -> ->.
      * apply IHhere. reflexivity.
      * eapply IHlater. reflexivity.
Qed.

(** What the search finds is the match at the leftmost position where
    the expression matches. *)
Lemma search_from_some prev s m :
  Re.search_from prev s = Some m ->
  (Re.open_behind prev = true /\ Re.lazy_dots_before_close s = Some m)
  \/ (exists pre s',
        s = (pre ++ "("%char :: s')%list
        /\ Re.lazy_dots_before_close s' = Some m
        /\ (Re.open_behind prev = true -> Re.lazy_dots_before_close s = None)
        /\ forall pre2 s2,
            s = (pre2 ++ "("%char :: s2)%list ->
            (length pre2 < length pre)%nat ->
            Re.lazy_dots_before_close s2 = None).
Proof.
  revert prev. induction s as [|c r IH]; intros prev H.
  - left. simpl in H. destruct (Re.open_behind prev); [discriminate | discriminate].
  - cbn [Re.search_from] in H.
    destruct (if Re.open_behind prev then Re.lazy_dots_before_close (c :: r) else None)
      as [m'|] eqn:Hhere.
    + left. destruct (Re.open_behind prev); [|discriminate].
      split; [reflexivity | congruence].
    + right.
      assert (Re.open_behind prev = true ->
              Re.lazy_dots_before_close (c :: r) = None) as Hnothere.
      { intros Hopen. now rewrite Hopen in Hhere. }
      destruct (IH _ H) as [[Hopen Hlazy]|(pre & s' & -> & Hlazy & Hprev & Hleft)].
      * simpl in Hopen. apply Ascii.eqb_eq in Hopen. subst c.
        exists [], r. repeat split; try assumption.
        intros pre2 s2 _ Hlt. simpl in Hlt. lia.
      * exists (c :: pre), s'. repeat split; try assumption.
        intros [|p pre2] s2 Heq Hlt; injection Heq as -> Heq.
        -- subst s2. apply Hprev. reflexivity.
        -- eapply Hleft; [eassumption|]. simpl in Hlt. lia.
Qed.

End CountryRule.

Module CountryFixtures.
Import Fixtures.

Definition fragment_with_status (status : string) (table_rows : list node) : node :=
  Tag "article" ["list-item"] ∅
    [ Tag "time" [] {[ "datetime" := "2024-01-02" ]} [txt "2nd January 2024"];
      Tag "h3" ["userStatusWrapper"] ∅ [txt status];
      Tag "table" ["review-ratings"] ∅ table_rows ].

(** A fragment with the status line of the specification's example. *)
Definition fragment_of_john : node :=
  fragment_with_status "John D (United Kingdom)" [].

(** The same with a row of the ratings table labelled [Country]. *)
Definition fragment_with_country_row : node :=
  fragment_with_status "John D (United Kingdom)"
    [ elem "tr" [elem "td" [txt "Country"]; elem "td" [txt "France"]] ].

(** A fragment whose status line has a closing bracket right after the
    opening one. *)
Definition fragment_with_odd_status : node :=
  fragment_with_status "()x)" [].

End CountryFixtures.

Section CountryTheorems.
Import Soup Scraper Fixtures CountryFixtures.

(** C6 as the specification words it, at its weakest: the country stands
    between an opening bracket of the status line and the next closing
    bracket after it. *)
Definition between_open_and_next_close (chars m : list ascii) : Prop :=
  exists pre post,
    chars = (pre ++ "("%char :: m ++ ")"%char :: post)%list
    /\ ~ In ")"%char m.

(** The same with the last opening bracket of the line. *)
Definition between_last_open_and_next_close (chars m : list ascii) : Prop :=
  exists pre post,
    chars = (pre ++ "("%char :: m ++ ")"%char :: post)%list
    /\ ~ In ")"%char m
    /\ ~ In "("%char (m ++ post).

(** C6, the counterexample.  On the status line [()x)] the country is
    [)x], which is neither ["N/A"] nor a text between an opening bracket
    and the next closing one; on a line with two bracketed parts the
    country is the first part, not the one after the last opening
    bracket.  The returned record holds that [)x] in its Country field; and
    with a row of the ratings table labelled [Country] the record holds the
    value of the row, not what the status line gives. *)
Lemma country_not_between_brackets :
  country_of_status "()x)" = ")x"
  /\ country_of_status "()x)" <> NA
  /\ ~ between_open_and_next_close
       (status_chars "()x)") (list_ascii_of_string (country_of_status "()x)"))
  /\ country_of_status "John (Johnny) D (United Kingdom)" = "Johnny"
  /\ between_last_open_and_next_close
       (status_chars "John (Johnny) D (United Kingdom)")
       (list_ascii_of_string "United Kingdom")
  /\ (exists r : review,
         (extract_review fragment_with_odd_status empty_world).2 = Returns r
         /\ r !! "Country" = Some ")x")
  /\ (exists r : review,
         (extract_review fragment_with_country_row empty_world).2 = Returns r
         /\ extract_country fragment_with_country_row = "United Kingdom"
         /\ r !! "Country" = Some "France").
Proof.
  split; [reflexivity|]. split; [discriminate|].
  split; [|split; [reflexivity|split; [|split]]].
  - intros (pre & post & _ & Hnotin). apply Hnotin. left. reflexivity.
  - exists (list_ascii_of_string "John (Johnny) D "), [].
    split; [reflexivity|]. split.
    + vm_compute. intros H. repeat (destruct H as [H|H]; [discriminate|]). exact H.
    + vm_compute. intros H. repeat (destruct H as [H|H]; [discriminate|]). exact H.
  - eexists. split; reflexivity.
  - eexists. split; [reflexivity|]. split; reflexivity.
Qed.

Lemma country_of_status_cases status :
  (exists pre c rest,
      opens_country (status_chars status) pre (c :: rest)
      /\ ~ In ")"%char rest
      /\ (forall pre2 m2,
             opens_country (status_chars status) pre2 m2 ->
             (length pre <= length pre2)%nat)
      /\ country_of_status status = string_of_list_ascii (c :: rest))
  \/ ((forall pre m, ~ opens_country (status_chars status) pre m)
      /\ country_of_status status = NA).
Proof.
  unfold country_of_status, Re.search_country. fold (status_chars status).
  destruct (Re.search_from None (status_chars status)) as [m|] eqn:Hsearch.
  - left. apply search_from_some in Hsearch
      as [[Hopen _]|(pre & s' & Hchars & Hlazy & _ & Hleft)]; [discriminate|].
    apply lazy_dots_sound in Hlazy as (c & rest & post & -> & -> & Hnn & Hnotin).
    exists pre, c, rest. repeat split; try assumption.
    + exists post. repeat split; [exact Hchars | discriminate | assumption].
    + intros pre2 m2 Hopens.
      destruct (opens_country_matches _ _ _ Hopens) as (post2 & Hchars2 & [m' Hm']).
      destruct (Nat.le_gt_cases (length pre) (length pre2)) as [Hle|Hlt];
        [assumption|].
      rewrite (Hleft pre2 post2 Hchars2 Hlt) in Hm'. discriminate.
  - right. split; [|reflexivity].
    intros pre m Hopens.
    destruct (opens_country_matches _ _ _ Hopens) as (post & Hchars & [m' Hm']).
    apply search_from_none in Hsearch as [_ Hnone].
    rewrite (Hnone pre post Hchars) in Hm'. discriminate.
Qed.

(** A status line without an opening bracket, or without a closing one,
    has no country. *)
Lemma country_without_brackets status :
  ~ In "("%char (status_chars status) \/ ~ In ")"%char (status_chars status) ->
  country_of_status status = NA.
Proof.
  intros Hno.
  destruct (country_of_status_cases status)
    as [(pre & c & rest & (post & Hchars & _) & _)|[_ Hna]]; [|assumption].
  exfalso. destruct Hno as [Hno|Hno]; apply Hno; rewrite Hchars.
  - apply in_or_app. right. left. reflexivity.
  - apply in_or_app. right. right.
    change (In ")"%char ((c :: rest) ++ ")"%char :: post)).
    apply in_or_app. right. left. reflexivity.
Qed.

(** C6, amended.  In a returned record, unless a row of the ratings table
    is labelled [Country]: without a status line the Country field is
    ["N/A"].  With one, the rule works on its trimmed text: the field is the
    text after the first opening bracket that is followed by at least one
    character and then, with no line feed in between, a closing bracket; it
    runs up to the first closing bracket met after its first character.
    When no opening bracket is followed that way, the field is ["N/A"].
    The status text [John D (United Kingdom)] gives [United Kingdom]. *)
Theorem country_rule (review_block : node) (w w' : world) (r : review) :
  extract_review review_block w = (w', Returns r) ->
  no_row_labelled "Country" review_block ->
  match find review_block (Some "h3") (ClassIs "userStatusWrapper") with
  | None => r !! "Country" = Some "N/A"
  | Some user_info =>
      let chars := status_chars (text user_info) in
      ((exists pre c rest,
           opens_country chars pre (c :: rest)
           /\ ~ In ")"%char rest
           /\ (forall pre2 m2,
                  opens_country chars pre2 m2 -> (length pre <= length pre2)%nat)
           /\ r !! "Country" = Some (string_of_list_ascii (c :: rest)))
       \/ ((forall pre m, ~ opens_country chars pre m)
           /\ r !! "Country" = Some "N/A"))
      /\ (PyStr.strip (text user_info) = "John D (United Kingdom)" ->
          r !! "Country" = Some "United Kingdom")
  end.
Proof.
  intros Hret Hno.
  destruct (extract_review_returns _ _ _ _ Hret) as (r0 & Hcore & _).
  rewrite (core_field_kept _ _ _ _ _ _ Hret Hcore Hno).
  destruct (core_fields_lookup _ _ Hcore) as (_ & _ & _ & -> & _).
  unfold extract_country.
  destruct (find review_block (Some "h3") (ClassIs "userStatusWrapper"))
    as [user_info|]; [|reflexivity].
  split.
  - destruct (country_of_status_cases (text user_info))
      as [(pre & c & rest & Hopens & Hnotin & Hleft & ->)|[Hnone ->]].
    + left. exists pre, c, rest. repeat split; assumption.
    + right. split; [assumption | reflexivity].
  - intros Hjohn. unfold country_of_status. rewrite Hjohn. reflexivity.
Qed.

Lemma country_rule_witness :
  exists r : review,
    (extract_review fragment_of_john empty_world).2 = Returns r
    /\ r !! "Country" = Some "United Kingdom".
Proof.
  eexists. split; [reflexivity|].
  pose proof (country_rule
                fragment_of_john empty_world
                (extract_review fragment_of_john empty_world).1
                match (extract_review fragment_of_john empty_world).2 with
                | Returns r => r
                | Raises _ => ∅
                end) as Hrule.
  destruct Hrule as [_ Hjohn].
  - reflexivity.
  - intros table Htable. vm_compute in Htable. injection Htable as <-. constructor.
  - apply Hjohn. reflexivity.
Defined.

End CountryTheorems.

(** ** The pseudonymizer *)

Module DatasetFixtures.
Import Pandas Pseudonymize.

(** A dataset as the scraper writes it, where two reviews have no
    country: the scraper's ["N/A"] is a missing value to [read_csv]. *)
Definition missing_country : csv :=
  Csv ["Date"; "Author"; "Country"]
      [ ["2024-01-02"; "Alice"; "N/A"];
        ["2024-01-03"; "Bob"; "N/A"];
        ["2024-01-04"; "Carol"; "France"] ].

(** Two reviews whose authors and countries differ and whose keys, once
    joined with the bar, are the same text. *)
Definition separator_clash : csv :=
  Csv ["Author"; "Country"]
      [ ["a|b"; "c"];
        ["a"; "b|c"] ].

(** A dataset without the Country column. *)
Definition without_country : csv :=
  Csv ["Date"; "Author"; "Review"]
      [ ["2024-01-02"; "Alice"; "Good."] ].

(** The dataset the scraper writes for a category without records: a
    file without any line. *)
Definition empty_dataset : csv := Csv [] [].

Definition one_file (filepath : string) (file : csv) : state :=
  State [] {[ filepath := file ]}.

(** A rendering of floats for the examples, none of which has a column of
    floats. *)
Definition no_floats (token : string) : string := token.

End DatasetFixtures.

Section PseudonymizerTheorems.
Import Pandas Pseudonymize DatasetFixtures.

Variable float_repr : string -> string.

Lemma has_column_imap {A} (f : nat -> string -> A) (names : list string) name :
  existsb (fun c : string * A => String.eqb (fst c) name)
          (imap (fun j n => (n, f j n)) names)
  = existsb (fun n => String.eqb n name) names.
Proof.
  revert f. induction names as [|n names IH]; intros f; [reflexivity|].
  simpl. f_equal. apply (IH (fun j => f (S j))).
Qed.

(** What [read_csv] returns has the names of the header for its
    columns. *)
Lemma read_csv_columns file df :
  read_csv file = Returns df ->
  exists lead,
    df = Frame (length (rows file))
               (imap (fun j name =>
                        (name,
                         convert (List.map (fun row => read_cell (nth (lead + j) row ""))
                                           (rows file))))
                     (header file)).
Proof.
  unfold read_csv. destruct (header file) as [|name names]; [discriminate|].
  destruct (existsb _ (rows file)); [discriminate|].
  intros [= <-]. eexists. reflexivity.
Qed.

Lemma has_column_read_csv file df name :
  read_csv file = Returns df ->
  has_column df name = true <-> In name (header file).
Proof.
  intros Hread. destruct (read_csv_columns _ _ Hread) as [lead ->].
  unfold has_column. cbn [columns].
  rewrite (has_column_imap
             (fun j _ => convert (List.map (fun row => read_cell (nth (lead + j) row ""))
                                           (rows file)))).
  rewrite existsb_exists. split.
  - intros (n & Hin & Heq). apply String.eqb_eq in Heq. now subst.
  - intros Hin. exists name. split; [assumption | apply String.eqb_refl].
Qed.

(** A file with a header and no row longer than the header can be
    read. *)
Lemma read_csv_returns file :
  header file <> [] ->
  Forall (fun row => (length row <= length (header file))%nat) (rows file) ->
  exists df, read_csv file = Returns df.
Proof.
  intros Hheader Hrows. unfold read_csv.
  destruct (header file) as [|name names] eqn:Hnames; [congruence|].
  assert (Nat.max (length (name :: names))
                  match rows file with
                  | [] => 0%nat
                  | first :: _ => length first
                  end = length (name :: names)) as ->.
  { destruct (rows file) as [|first others]; [apply Nat.max_l; lia|].
    inversion Hrows; subst. apply Nat.max_l. assumption. }
  assert (existsb (fun row => (length (name :: names) <? length row)%nat) (rows file)
          = false) as ->.
  { apply not_true_is_false. intros Hex.
    apply existsb_exists in Hex as (row & Hin & Hlong).
    apply Nat.ltb_lt in Hlong. rewrite Forall_forall in Hrows.
    apply list_elem_of_In in Hin. specialize (Hrows row Hin). lia. }
  eexists. reflexivity.
Qed.

(** C9 as the specification words it: the call records a warning and
    leaves the files as they were. *)
Definition skipped_with_warning (filepath : string) (st : state) : Prop :=
  exists msg,
    process_dataset float_repr filepath st
    = State (log st ++ [(WARNING, msg)]) (disk st).

(** C9, amended.  A dataset file whose header lacks the Author column or
    the Country column is left as it was, and [main] goes on with the
    files that follow.  When the file can be read, which a file with a
    header and no row longer than the header can, the log gains one
    warning and no error; when the file is empty the reading fails and the
    log gains one error. *)
Theorem missing_column_skips (filename : string) (st : state) (file : csv) :
  disk st !! ("data/" +:+ filename) = Some file ->
  ~ In "Author" (header file) \/ ~ In "Country" (header file) ->
  disk (process_dataset float_repr ("data/" +:+ filename) st) = disk st
  /\ (header file <> [] ->
      Forall (fun row => (length row <= length (header file))%nat) (rows file) ->
      process_dataset float_repr ("data/" +:+ filename) st
      = State (log st ++ [(WARNING, "Skipping " +:+ ("data/" +:+ filename)
                                     +:+ ": missing required columns.")])
              (disk st))
  /\ (header file = [] ->
      process_dataset float_repr ("data/" +:+ filename) st
      = State (log st ++ [(ERROR, "Error processing " +:+ ("data/" +:+ filename))])
              (disk st))
  /\ forall rest,
      endswith filename "_reviews.csv" = true ->
      main float_repr (filename :: rest) st
      = main float_repr rest (process_dataset float_repr ("data/" +:+ filename) st).
Proof.
  intros Hfile Hmissing.
  assert (forall df, read_csv file = Returns df ->
                     negb (has_column df "Author") || negb (has_column df "Country")
                     = true) as Hskip.
  { intros df Hread. apply orb_true_iff.
    destruct Hmissing as [Hno|Hno]; [left|right];
      apply negb_true_iff, not_true_is_false;
      intros Hhas; apply Hno; now apply (has_column_read_csv file df). }
  split; [|split; [|split]].
  - unfold process_dataset. rewrite Hfile.
    destruct (read_csv file) as [df|e] eqn:Hread; [|reflexivity].
    now rewrite (Hskip df eq_refl).
  - intros Hheader Hrows. unfold process_dataset. rewrite Hfile.
    destruct (read_csv_returns file Hheader Hrows) as [df Hread].
    now rewrite Hread, (Hskip df Hread).
  - intros Hempty. unfold process_dataset, read_csv. now rewrite Hfile, Hempty.
  - intros rest Hends. cbn [main]. now rewrite Hends.
Qed.

(** C1.  Line 21 gives one identifier to rows that differ.  Reviews
    without a country, which the scraper writes as ["N/A"], all get the
    sentinel [-1], a negative number, whoever the author is; and two
    reviews that differ in author and in country get the same identifier
    when their keys joined by the bar are the same text. *)
Theorem author_ids_clash :
  and_then (read_csv missing_country) author_ids = Returns [-1; -1; 0]
  /\ and_then (read_csv separator_clash) author_ids = Returns [0; 0]
  /\ (process_dataset float_repr "data/airline_reviews.csv"
                      (one_file "data/airline_reviews.csv" missing_country)).(disk)
       !! "data/airline_reviews.csv"
     = Some (Csv ["Date"; "Country"; "author_id"]
                 [ ["2024-01-02"; ""; "-1"];
                   ["2024-01-03"; ""; "-1"];
                   ["2024-01-04"; "France"; "0"] ]).
Proof. repeat split; reflexivity. Qed.

End PseudonymizerTheorems.

Section EmptyDataset.
Import Pandas Pseudonymize DatasetFixtures.

(** C9, the counterexample.  The empty dataset, which the scraper writes
    for a category without records, has no Author column; on it the reading
    fails and the call records an error, not a warning. *)
Lemma empty_dataset_logs_error :
  ~ In "Author" (header empty_dataset)
  /\ process_dataset no_floats "data/lounge_reviews.csv"
                     (one_file "data/lounge_reviews.csv" empty_dataset)
     = State [(ERROR, "Error processing data/lounge_reviews.csv")]
             {[ "data/lounge_reviews.csv" := empty_dataset ]}
  /\ ~ skipped_with_warning no_floats "data/lounge_reviews.csv"
                            (one_file "data/lounge_reviews.csv" empty_dataset).
Proof.
  split; [intros []|]. split; [reflexivity|].
  intros [msg Hwarning]. vm_compute in Hwarning. discriminate.
Qed.

Lemma missing_column_skips_witness :
  disk (process_dataset no_floats "data/seat_reviews.csv"
                        (one_file "data/seat_reviews.csv" without_country))
  = {[ "data/seat_reviews.csv" := without_country ]}
  /\ process_dataset no_floats "data/seat_reviews.csv"
                     (one_file "data/seat_reviews.csv" without_country)
     = State [(WARNING, "Skipping data/seat_reviews.csv: missing required columns.")]
             {[ "data/seat_reviews.csv" := without_country ]}.
Proof.
  destruct (missing_column_skips no_floats "seat_reviews.csv"
              (one_file "data/seat_reviews.csv" without_country) without_country)
    as (Hdisk & Hwarning & _ & _).
  - reflexivity.
  - right. simpl. intros H. repeat (destruct H as [H|H]; [discriminate|]). exact H.
  - split; [exact Hdisk|].
    apply Hwarning; [discriminate | repeat constructor].
Defined.

End EmptyDataset.


(** ** What [factorize] does guarantee *)

Section Factorize.
Import Pandas Pseudonymize.

(** The distinct present values in the order of their first appearance,
    after the ones in [uniques]. *)
Fixpoint first_seen_from (uniques : list string) (values : list (option string))
  : list string :=
  match values with
  | [] => uniques
  | None :: r => first_seen_from uniques r
  | Some k :: r =>
      match index_of k uniques with
      | Some _ => first_seen_from uniques r
      | None => first_seen_from (uniques ++ [k]) r
      end
  end.

Definition first_seen (values : list (option string)) : list string :=
  first_seen_from [] values.

Definition code_of (uniques : list string) (v : option string) : Z :=
  match v with
  | None => -1
  | Some k =>
      match index_of k uniques with
      | Some i => Z.of_nat i
      | None => -1
      end
  end.

Lemma index_of_lookup k (l : list string) i :
  index_of k l = Some i -> l !! i = Some k.
Proof.
  revert i. induction l as [|x l IH]; intros i H; simpl in H; [discriminate|].
  destruct (String.eqb_spec x k) as [->|Hne].
  - now injection H as <-.
  - destruct (index_of k l) as [n|]; [|discriminate].
    injection H as <-. now apply IH.
Qed.

Lemma index_of_app_l k (l ext : list string) i :
  index_of k l = Some i -> index_of k (l ++ ext) = Some i.
Proof.
  revert i. induction l as [|x l IH]; intros i H; simpl in *; [discriminate|].
  destruct (String.eqb x k); [assumption|].
  destruct (index_of k l) as [n|]; [|discriminate].
  now rewrite (IH n eq_refl).
Qed.

Lemma index_of_app_new k (l ext : list string) :
  index_of k l = None -> index_of k (l ++ k :: ext) = Some (length l).
Proof.
  induction l as [|x l IH]; intros H; simpl in *.
  - now rewrite String.eqb_refl.
  - destruct (String.eqb x k); [discriminate|].
    destruct (index_of k l) as [n|]; [discriminate|].
    now rewrite IH.
Qed.

Lemma first_seen_from_extends uniques values :
  exists ext, first_seen_from uniques values = (uniques ++ ext)%list.
Proof.
  revert uniques. induction values as [|[k|] r IH]; intros uniques; simpl.
  - exists []. now rewrite app_nil_r.
  - destruct (index_of k uniques); [apply IH|].
    destruct (IH (uniques ++ [k])%list) as [ext ->].
    exists (k :: ext). now rewrite <- app_assoc.
  - apply IH.
Qed.

(** The codes are the positions in the list of first appearances, and
    [-1] for the missing values. *)
Lemma factorize_from_codes uniques values :
  factorize_from uniques values
  = List.map (code_of (first_seen_from uniques values)) values.
Proof.
  revert uniques. induction values as [|[k|] r IH]; intros uniques; simpl.
  - reflexivity.
  - destruct (index_of k uniques) as [i|] eqn:Hk.
    + rewrite IH. f_equal.
      destruct (first_seen_from_extends uniques r) as [ext ->].
      now rewrite (index_of_app_l _ _ ext _ Hk).
    + rewrite IH. f_equal.
      destruct (first_seen_from_extends (uniques ++ [k])%list r) as [ext ->].
      rewrite <- app_assoc. simpl. now rewrite (index_of_app_new _ _ ext Hk).
  - now rewrite IH.
Qed.

Lemma first_seen_from_covers uniques values k :
  In (Some k) values ->
  is_Some (index_of k (first_seen_from uniques values)).
Proof.
  revert uniques. induction values as [|[x|] r IH]; intros uniques Hin; simpl.
  - destruct Hin.
  - destruct Hin as [[= ->]|Hin].
    + destruct (index_of k uniques) as [i|] eqn:Hk.
      * destruct (first_seen_from_extends uniques r) as [ext ->].
        rewrite (index_of_app_l _ _ ext _ Hk). eauto.
      * destruct (first_seen_from_extends (uniques ++ [k])%list r) as [ext ->].
        rewrite <- app_assoc. simpl. rewrite (index_of_app_new _ _ ext Hk). eauto.
    + destruct (index_of x uniques); now apply IH.
  - destruct Hin as [Hin|Hin]; [discriminate | now apply IH].
Qed.

(** A present value gets a non-negative code: its position among the
    first appearances. *)
Lemma factorize_present (values : list (option string)) i k :
  values !! i = Some (Some k) ->
  exists n, factorize values !! i = Some (Z.of_nat n)
            /\ index_of k (first_seen values) = Some n
            /\ first_seen values !! n = Some k.
Proof.
  intros Hi. unfold factorize. rewrite factorize_from_codes.
  fold (first_seen values).
  assert (In (Some k) values) as Hin.
  { apply list_elem_of_In. eapply list_elem_of_lookup_2. eassumption. }
  destruct (first_seen_from_covers [] values k Hin) as [n Hn].
  fold (first_seen values) in Hn.
  exists n. split; [|split; [assumption | now apply index_of_lookup]].
  change (List.map ?f ?l) with (f <$> l).
  rewrite list_lookup_fmap, Hi. simpl. now rewrite Hn.
Qed.

(** A missing value gets the sentinel. *)
Lemma factorize_missing (values : list (option string)) i :
  values !! i = Some None -> factorize values !! i = Some (-1).
Proof.
  intros Hi. unfold factorize. rewrite factorize_from_codes.
  change (List.map ?f ?l) with (f <$> l).
  now rewrite list_lookup_fmap, Hi.
Qed.

(** Two present values share their code exactly when they are equal. *)
Lemma factorize_same_key_iff (values : list (option string)) i j a b :
  values !! i = Some (Some a) ->
  values !! j = Some (Some b) ->
  factorize values !! i = factorize values !! j <-> a = b.
Proof.
  intros Hi Hj.
  destruct (factorize_present _ _ _ Hi) as (n & -> & Hin & Hn).
  destruct (factorize_present _ _ _ Hj) as (m & -> & Him & Hm).
  split.
  - intros [= Heq]. apply Nat2Z.inj in Heq. subst m. congruence.
  - intros ->. congruence.
Qed.

End Factorize.


(** ** The keys of line 21 *)

Section Keys.
Import Pandas Pseudonymize.

Definition no_bar (s : string) : Prop :=
  ~ In "|"%char (list_ascii_of_string s).

Lemma append_nil_l (s : string) : "" +:+ s = s.
Proof. reflexivity. Qed.

Lemma append_cons (x : ascii) (a s : string) :
  String x a +:+ s = String x (a +:+ s).
Proof. reflexivity. Qed.

(** Joined by the bar, an author without a bar and a country can be told
    apart again. *)
Lemma bar_join_inj (a a' c c' : string) :
  no_bar a -> no_bar a' ->
  (a +:+ "|") +:+ c = (a' +:+ "|") +:+ c' ->
  a = a' /\ c = c'.
Proof.
  revert a'. induction a as [|x a IH]; intros [|x' a'] Ha Ha' Heq;
    repeat rewrite ?append_nil_l, ?append_cons in Heq.
  - injection Heq as ->. split; reflexivity.
  - injection Heq as <- _. exfalso. apply Ha'. left. reflexivity.
  - injection Heq as -> _. exfalso. apply Ha. left. reflexivity.
  - injection Heq as -> Heq.
    destruct (IH a') as [-> ->]; try assumption.
    + intros Hin. apply Ha. right. exact Hin.
    + intros Hin. apply Ha'. right. exact Hin.
    + split; reflexivity.
Qed.

(** X19.  On the rows whose author and country are both present and whose
    author has no bar, the identifiers are non-negative and two rows share
    theirs exactly when author and country are the same. *)
Lemma present_rows_same_id_iff (df : DataFrame) (authors countries : list (option string)) :
  column df "Author" = Some (Object authors) ->
  column df "Country" = Some (Object countries) ->
  exists ids,
    author_ids df = Returns ids
    /\ forall i j a c a' c',
        authors !! i = Some (Some a) -> countries !! i = Some (Some c) ->
        authors !! j = Some (Some a') -> countries !! j = Some (Some c') ->
        no_bar a -> no_bar a' ->
        (exists n, ids !! i = Some (Z.of_nat n))
        /\ (ids !! i = ids !! j <-> a = a' /\ c = c').
Proof.
  intros Hauthor Hcountry. unfold author_ids. rewrite Hauthor, Hcountry.
  cbn [add_str add_series]. eexists. split; [reflexivity|].
  intros i j a c a' c' Hai Hci Haj Hcj Hbar Hbar'.
  set (keys := zip_with _ _ countries).
  assert (forall k x y,
             authors !! k = Some (Some x) -> countries !! k = Some (Some y) ->
             keys !! k = Some (Some ((x +:+ "|") +:+ y))) as Hkey.
  { intros k x y Hx Hy. unfold keys. rewrite lookup_zip_with.
    change (List.map ?f ?l) with (f <$> l).
    rewrite list_lookup_fmap, Hx, Hy. reflexivity. }
  pose proof (Hkey _ _ _ Hai Hci) as Hki.
  pose proof (Hkey _ _ _ Haj Hcj) as Hkj.
  split.
  - destruct (factorize_present _ _ _ Hki) as (n & Hn & _). eauto.
  - rewrite (factorize_same_key_iff _ _ _ _ _ Hki Hkj). split.
    + now apply bar_join_inj.
    + intros [-> ->]. reflexivity.
Qed.

End Keys.

(** ** When the extractor returns *)

Section ExtractorReturns.
Import Soup Scraper.

(** X8.  Without a ratings table the [AttributeError] of line 85 is caught
    and logged, and the record has its core fields and nothing else. *)
Lemma missing_table_is_caught review_block (r0 : review) (w : world) :
  core_fields review_block = Returns r0 ->
  find review_block (Some "table") (ClassIs "review-ratings") = None ->
  extract_review review_block w
  = (World (stdout w ++ [ErrorParsingStats]) (data_dir w), Returns r0).
Proof.
  intros Hcore Htable. unfold extract_review, extract_stats, stats_body.
  rewrite Hcore, Htable. reflexivity.
Qed.

Lemma stats_loop_total rows (r : review) :
  Forall (fun stat => (2 <= length (findChildren stat))%nat) rows ->
  exists r', stats_loop rows r = (r', Returns tt).
Proof.
  revert r. induction rows as [|stat rows IH]; intros r Hall.
  - simpl. eauto.
  - inversion Hall as [|? ? Hstat Hrest]; subst. simpl. unfold stat_row.
    destruct (findChildren stat) as [|c0 [|c1 cells]]; simpl in Hstat; try lia.
    simpl. now apply IH.
Qed.

(** X6.  The extractor returns a record as soon as the fragment has a
    [time] element and every row of its ratings table, if it has one, has
    two tags below it. *)
Lemma extract_review_total review_block (w : world) :
  find review_block (Some "time") NoFilter <> None ->
  (forall table,
      find review_block (Some "table") (ClassIs "review-ratings") = Some table ->
      Forall (fun stat => (2 <= length (findChildren stat))%nat)
             (find_all table (Some "tr") NoFilter)) ->
  exists w' r, extract_review review_block w = (w', Returns r).
Proof.
  intros Htime Hrows. unfold extract_review, core_fields, extract_date.
  destruct (find review_block (Some "time") NoFilter) as [t|]; [|congruence].
  unfold extract_stats, stats_body.
  destruct (find review_block (Some "table") (ClassIs "review-ratings")) as [table|].
  - edestruct (stats_loop_total (find_all table (Some "tr") NoFilter)) as [r' ->].
    + now apply Hrows.
    + cbv [bind print ret]. eauto.
  - cbv [bind print ret]. eauto.
Qed.

Lemma assign_all_is_Some (entries : list (string * string)) (r : review) key :
  is_Some (r !! key) -> is_Some (assign_all r entries !! key).
Proof.
  revert r. induction entries as [|[k v] entries IH]; intros r Hsome; [assumption|].
  unfold assign_all in *. simpl. apply IH.
  destruct (decide (k = key)) as [->|Hne].
  - rewrite lookup_insert_eq. eauto.
  - now rewrite lookup_insert_ne.
Qed.

(** X7.  A returned record has its six core fields, whatever the rows of
    the ratings table did to their values. *)
Lemma returned_record_has_core_fields review_block (w w' : world) (r : review) field :
  extract_review review_block w = (w', Returns r) ->
  In field core_field_names ->
  is_Some (r !! field).
Proof.
  intros Hret Hin.
  destruct (extract_review_returns _ _ _ _ Hret) as (r0 & Hcore & Hcases).
  pose proof (core_fields_sets_all _ _ _ Hcore Hin) as Hsome.
  destruct Hcases as [(_ & -> & _)|(table & entries & _ & _ & -> & _)];
    [assumption | now apply assign_all_is_Some].
Qed.

End ExtractorReturns.


(** ** Numerals *)

Section Numerals.

Definition uint_chars (d : Decimal.uint) : list ascii :=
  list_ascii_of_string (NilEmpty.string_of_uint d).

Lemma uint_chars_digits d : Forall (fun c => PyStr.is_digit c = true) (uint_chars d).
Proof.
  unfold uint_chars. induction d; simpl; constructor; (reflexivity || assumption).
Qed.

Lemma digit_not_space c : PyStr.is_digit c = true -> PyStr.isspace c = false.
Proof.
  unfold PyStr.is_digit, PyStr.isspace. intros H.
  apply andb_true_iff in H as [Hlo Hhi].
  apply Nat.leb_le in Hlo. apply Nat.leb_le in Hhi.
  apply orb_false_iff. split; apply andb_false_iff.
  - right. apply Nat.leb_gt. lia.
  - right. apply Nat.leb_gt. lia.
Qed.

Lemma lstrip_chars_digits s :
  Forall (fun c => PyStr.is_digit c = true) s -> PyStr.lstrip_chars s = s.
Proof.
  intros Hall. destruct s as [|c r]; [reflexivity|].
  inversion Hall as [|? ? Hc _]; subst. simpl.
  now rewrite (digit_not_space _ Hc).
Qed.

Lemma strip_chars_digits s :
  Forall (fun c => PyStr.is_digit c = true) s -> PyStr.strip_chars s = s.
Proof.
  intros Hall. unfold PyStr.strip_chars, PyStr.rstrip_chars.
  rewrite (lstrip_chars_digits s Hall).
  rewrite lstrip_chars_digits by now apply Forall_rev.
  apply rev_involutive.
Qed.

(** The digits of a numeral are read by Horner's rule, as
    [Nat.of_uint_acc] reads them. *)
Lemma int_digits_uint d (acc : nat) :
  PyStr.int_digits (Z.of_nat acc) true (uint_chars d)
  = Some (Z.of_nat (Nat.of_uint_acc d acc)).
Proof.
  unfold uint_chars. revert acc.
  induction d as [|d IH|d IH|d IH|d IH|d IH|d IH|d IH|d IH|d IH|d IH];
    intros acc; [reflexivity|..];
    cbn [NilEmpty.string_of_uint list_ascii_of_string PyStr.int_digits Nat.of_uint_acc];
    change (PyStr.is_digit _) with true; cbn iota;
    rewrite <- IH; f_equal; rewrite Nat.tail_mul_spec;
    match goal with
    | |- context [PyStr.digit_val ?c] =>
        let v := eval vm_compute in (PyStr.digit_val c) in
        change (PyStr.digit_val c) with v
    end; lia.
Qed.

Lemma int_digits_first acc c r :
  PyStr.is_digit c = true ->
  PyStr.int_digits acc false (c :: r) = PyStr.int_digits acc true (c :: r).
Proof. intros Hc. simpl. now rewrite Hc. Qed.

Lemma digit_not_sign (c : ascii) :
  PyStr.is_digit c = true ->
  Ascii.eqb c "-" = false /\ Ascii.eqb c "+" = false.
Proof.
  intros H. split; apply Ascii.eqb_neq; intros ->; vm_compute in H; discriminate.
Qed.

(** [int] reads the numeral [str] writes for a length. *)
Lemma int_str_of_nat (n : nat) :
  PyStr.int (PyStr.str_of_nat n) = Some (Z.of_nat n).
Proof.
  unfold PyStr.int, PyStr.str_of_nat.
  assert (Nat.to_uint n <> Decimal.Nil) as Hnil.
  { intros Hd. pose proof (f_equal Nat.of_uint Hd) as Hn.
    rewrite DecimalNat.Unsigned.of_to in Hn. subst n. discriminate Hd. }
  assert (NilZero.string_of_uint (Nat.to_uint n)
          = NilEmpty.string_of_uint (Nat.to_uint n)) as ->.
  { destruct (Nat.to_uint n); [congruence | reflexivity..]. }
  fold (uint_chars (Nat.to_uint n)).
  rewrite strip_chars_digits by apply uint_chars_digits.
  pose proof (uint_chars_digits (Nat.to_uint n)) as Hdigits.
  pose proof (int_digits_uint (Nat.to_uint n) 0) as Hread.
  change (Nat.of_uint_acc (Nat.to_uint n) 0) with (Nat.of_uint (Nat.to_uint n)) in Hread.
  rewrite DecimalNat.Unsigned.of_to in Hread.
  destruct (uint_chars (Nat.to_uint n)) as [|c r] eqn:Hchars.
  - exfalso. apply Hnil. unfold uint_chars in Hchars.
    destruct (Nat.to_uint n); try reflexivity; discriminate.
  - inversion Hdigits as [|? ? Hc _]; subst.
    destruct (digit_not_sign c Hc) as [-> ->].
    rewrite (int_digits_first _ _ _ Hc). exact Hread.
Qed.

End Numerals.


(** ** Numerals in the scraper *)

Section ScraperNumerals.
Import Soup Scraper.

(** When the entry before the last one shows the numeral of a page count,
    that count is the number of pages. *)
Lemma discover_num_pages_numeral
      (soup page_nav : node) (before : list node) (item next : node) (pages : nat) :
  find soup (Some "article") (ClassIs "comp_reviews-pagination") = Some page_nav ->
  find_all page_nav (Some "li") NoFilter = (before ++ [item; next])%list ->
  get_text_strip item = PyStr.str_of_nat pages ->
  discover_num_pages soup = Returns (Z.of_nat pages).
Proof.
  intros Hnav Hitems Htext. unfold discover_num_pages.
  rewrite Hnav, Hitems, second_to_last_app, Htext, int_str_of_nat. reflexivity.
Qed.

(** X13.  The value stored for a star widget reads back, through [int],
    as the count of its filled stars. *)
Lemma stat_value_reads_back (cell : node) :
  PyStr.strip (text cell) = "12345" ->
  PyStr.int (stat_value cell) = Some (Z.of_nat (filled_stars cell)).
Proof.
  intros Htext. unfold stat_value. rewrite Htext. cbn [String.eqb].
  change (String.eqb "12345" "12345") with true. cbn iota.
  apply int_str_of_nat.
Qed.

End ScraperNumerals.


(** * Further properties of the scraper *)

(** ** What a computation prints and what it leaves alone *)

Section Printing.
Import Soup Scraper.

(** [m] prints [evs], leaves the files alone and ends with [o], whatever
    the world it starts in. *)
Definition prints {A} (m : M A) (evs : list event) (o : outcome A) : Prop :=
  forall w, m w = (World (stdout w ++ evs) (data_dir w), o).

Lemma prints_ret {A} (a : A) : prints (ret a) [] (Returns a).
Proof. intros [out files]. unfold ret. simpl. now rewrite app_nil_r. Qed.

Lemma prints_raise {A} (e : exn) : prints (@raise A e) [] (Raises e).
Proof. intros [out files]. unfold raise. simpl. now rewrite app_nil_r. Qed.

Lemma prints_print (e : event) : prints (print e) [e] (Returns tt).
Proof. intros w. reflexivity. Qed.

Lemma prints_bind_returns {A B} (m : M A) (k : A -> M B) evs a evs' o :
  prints m evs (Returns a) -> prints (k a) evs' o ->
  prints (bind m k) (evs ++ evs') o.
Proof.
  intros Hm Hk w. unfold bind. rewrite Hm, Hk. simpl. now rewrite app_assoc.
Qed.

Lemma prints_bind_raises {A B} (m : M A) (k : A -> M B) evs e :
  prints m evs (Raises e) -> prints (bind m k) evs (Raises e).
Proof. intros Hm w. unfold bind. now rewrite Hm. Qed.

Lemma prints_outcome {A} (m : M A) evs o w : prints m evs o -> (m w).2 = o.
Proof. intros Hm. now rewrite Hm. Qed.

Lemma prints_files {A} (m : M A) evs o w :
  prints m evs o -> data_dir (m w).1 = data_dir w.
Proof. intros Hm. now rewrite Hm. Qed.

Lemma extract_review_prints review_block :
  exists evs o, prints (extract_review review_block) evs o.
Proof.
  unfold extract_review. destruct (core_fields review_block) as [r0|e].
  - unfold extract_stats. destruct (stats_body review_block r0) as [r' [[]|e]].
    + exists ([PrintedReview r'] ++ [])%list, (Returns r').
      eapply prints_bind_returns; [apply prints_print | apply prints_ret].
    + destruct e;
        try (eexists; eexists; apply prints_raise).
      exists ([ErrorParsingStats] ++ [])%list, (Returns r').
      eapply prints_bind_returns; [apply prints_print | apply prints_ret].
  - exists [], (Raises e). apply prints_raise.
Qed.

Lemma extract_all_prints blocks reviews :
  exists evs o, prints (extract_all blocks reviews) evs o.
Proof.
  revert reviews. induction blocks as [|review_block rest IH]; intros reviews.
  - exists [], (Returns reviews). apply prints_ret.
  - cbn [extract_all].
    destruct (extract_review_prints review_block) as (evs & [r|e] & Hfirst).
    + destruct (IH (reviews ++ [r])%list) as (evs' & o & Hrest).
      exists (evs ++ evs')%list, o.
      eapply (prints_bind_returns _ (fun r => extract_all rest (reviews ++ [r]))); eassumption.
    + exists evs, (Raises e). now apply prints_bind_raises.
Qed.

Lemma scrape_reviews_prints fetch page_url :
  exists evs o, prints (scrape_reviews fetch page_url) evs o.
Proof.
  unfold scrape_reviews. destruct (fetch page_url) as [soup|].
  - apply extract_all_prints.
  - exists ([RequestFailed page_url] ++ [])%list, (Returns []).
    eapply prints_bind_returns; [apply prints_print | apply prints_ret].
Qed.

Lemma get_all_pages_prints fetch section num_pages pages all_reviews :
  exists evs o, prints (get_all_pages fetch section num_pages pages all_reviews) evs o.
Proof.
  revert all_reviews. induction pages as [|page_num rest IH]; intros all_reviews.
  - exists [], (Returns all_reviews). apply prints_ret.
  - cbn [get_all_pages].
    destruct (scrape_reviews_prints fetch (BASE_URL section page_num))
      as (evs & [rs|e] & Hpage).
    + destruct (IH (all_reviews ++ rs)%list) as (evs' & o & Hrest).
      exists ([ScrapingPage page_num num_pages] ++ (evs ++ evs'))%list, o.
      eapply prints_bind_returns; [apply prints_print|].
      eapply (prints_bind_returns _ (fun rs => get_all_pages fetch section num_pages rest
                                                 (all_reviews ++ rs))); eassumption.
    + exists ([ScrapingPage page_num num_pages] ++ evs)%list, (Raises e).
      eapply prints_bind_returns; [apply prints_print|].
      now apply prints_bind_raises.
Qed.

(** The record of a fragment and the records of a page, whatever the
    world. *)
Definition record_of (review_block : node) : outcome review :=
  (extract_review review_block (World [] ∅)).2.

Definition page_outcome (fetch : string -> option node) (page_url : string)
  : outcome (list review) :=
  (scrape_reviews fetch page_url (World [] ∅)).2.

Lemma extract_review_outcome review_block w :
  (extract_review review_block w).2 = record_of review_block.
Proof.
  destruct (extract_review_prints review_block) as (evs & o & Hp).
  unfold record_of. now rewrite !(prints_outcome _ _ _ _ Hp).
Qed.

Lemma scrape_reviews_outcome fetch page_url w :
  (scrape_reviews fetch page_url w).2 = page_outcome fetch page_url.
Proof.
  destruct (scrape_reviews_prints fetch page_url) as (evs & o & Hp).
  unfold page_outcome. now rewrite !(prints_outcome _ _ _ _ Hp).
Qed.

End Printing.


(** ** Pages and categories *)

Module CrawlFixtures.
Import Fixtures PaginationFixtures TableFixtures.

(** A listing page with two review fragments. *)
Definition two_reviews : node :=
  document [ fragment_with_secondary_rating; fragment_with_rating_row ].

(** A listing page whose second fragment has no [time] element. *)
Definition broken_second : node :=
  document [ fragment_with_secondary_rating; fragment_without_time ].

(** A first page whose pagination block shows [0] before the last
    entry. *)
Definition zero_pages : node :=
  document [ pagination [ page_link "0"; page_link ">>" ] ].

(** A listing page with two review fragments and the pagination block of a
    category of two pages. *)
Definition two_reviews_of_two_pages : node :=
  document [ fragment_with_secondary_rating; fragment_with_rating_row;
             pagination [ page_link "1"; page_link "2"; page_link ">>" ] ].

(** The second page of the seat category is out of reach, every other
    page shows the two reviews. *)
Definition second_page_down (url : string) : option node :=
  if String.eqb url (Scraper.BASE_URL "seat" 2) then None else Some two_reviews.

Definition unreachable (url : string) : option node := None.

End CrawlFixtures.

Section Crawling.
Import Soup Scraper Fixtures PaginationFixtures TableFixtures CrawlFixtures.

Lemma extract_all_returns_iff blocks reviews w rs :
  (extract_all blocks reviews w).2 = Returns rs
  <-> exists recs,
      rs = (reviews ++ recs)%list
      /\ Forall2 (fun review_block r => record_of review_block = Returns r) blocks recs.
Proof.
  revert reviews w. induction blocks as [|review_block rest IH]; intros reviews w.
  - simpl. split.
    + intros [= <-]. exists []. split; [now rewrite app_nil_r | constructor].
    + intros (recs & -> & Hall). inversion Hall. now rewrite app_nil_r.
  - cbn [extract_all]. unfold bind.
    pose proof (extract_review_outcome review_block w) as Hout.
    destruct (extract_review review_block w) as [w1 [r|e]]; simpl in Hout.
    + rewrite IH. split.
      * intros (recs & -> & Hall). exists (r :: recs). split.
        -- now rewrite <- app_assoc.
        -- constructor; [now symmetry | assumption].
      * intros (recs & -> & Hall).
        inversion Hall as [|? r' ? recs' Hhead Hrest]; subst.
        assert (r' = r) as -> by congruence.
        exists recs'. split; [now rewrite <- app_assoc | assumption].
    + split; [discriminate|].
      intros (recs & _ & Hall). inversion Hall as [|? r' ? ? Hhead _]; subst.
      congruence.
Qed.

(** X1.  A page that could be fetched yields records exactly when every
    review fragment of the page yields one: the list has one record for
    each [article] of class [list-item], in the order of the page, and one
    fragment that raises leaves the page without any record. *)
Theorem scrape_reviews_one_record_per_fragment
        (fetch : string -> option node) (page_url : string) (soup : node)
        (w : world) (rs : list review) :
  fetch page_url = Some soup ->
  (scrape_reviews fetch page_url w).2 = Returns rs
  <-> Forall2 (fun review_block r => record_of review_block = Returns r)
              (find_all soup (Some "article") (ClassIs "list-item")) rs.
Proof.
  intros Hfetch. unfold scrape_reviews. rewrite Hfetch.
  rewrite extract_all_returns_iff. split.
  - intros (recs & -> & Hall). exact Hall.
  - intros Hall. exists rs. split; [reflexivity | assumption].
Qed.

Lemma scrape_reviews_one_record_per_fragment_witness :
  (exists r1 r2,
      (scrape_reviews (always two_reviews) "page" empty_world).2 = Returns [r1; r2]
      /\ record_of fragment_with_secondary_rating = Returns r1
      /\ record_of fragment_with_rating_row = Returns r2)
  /\ (scrape_reviews (always broken_second) "page" empty_world).2
     = Raises AttributeError.
Proof.
  split; [|reflexivity].
  eexists. eexists. split; [|split; reflexivity].
  apply (scrape_reviews_one_record_per_fragment
           (always two_reviews) "page" two_reviews empty_world).
  - reflexivity.
  - repeat constructor.
Defined.

Lemma get_all_pages_concat fetch section num_pages pages all_reviews w
      (recs : Z -> list review) :
  (forall p, In p pages -> page_outcome fetch (BASE_URL section p) = Returns (recs p)) ->
  (get_all_pages fetch section num_pages pages all_reviews w).2
  = Returns (all_reviews ++ concat (List.map recs pages))%list.
Proof.
  revert all_reviews w. induction pages as [|p rest IH]; intros all_reviews w Hpages.
  - simpl. now rewrite app_nil_r.
  - cbn [get_all_pages]. unfold bind at 1. cbn [print]. unfold bind.
    pose proof (scrape_reviews_outcome fetch (BASE_URL section p)
                  (World (stdout w ++ [ScrapingPage p num_pages]) (data_dir w))) as Hout.
    rewrite (Hpages p (or_introl eq_refl)) in Hout.
    destruct (scrape_reviews fetch (BASE_URL section p) _) as [w1 o]. simpl in Hout.
    subst o. rewrite IH by (intros q Hq; apply Hpages; now right).
    simpl. now rewrite <- app_assoc.
Qed.

(** X2.  When every page of a category yields its records, the harvest is
    the records of page 1, then those of page 2, and so on up to the last
    page; a page whose request fails counts for no record and does not
    stop the pages after it. *)
Theorem get_all_reviews_concatenates_pages
        (fetch : string -> option node) (section : string) (num_pages : Z)
        (w : world) (recs : Z -> list review) :
  (forall p, In p (page_range num_pages) ->
             page_outcome fetch (BASE_URL section p) = Returns (recs p)) ->
  (get_all_reviews fetch section num_pages w).2
  = Returns (concat (List.map recs (page_range num_pages)))
  /\ forall p, In p (page_range num_pages) ->
               fetch (BASE_URL section p) = None -> recs p = [].
Proof.
  intros Hpages. split.
  - unfold get_all_reviews. now rewrite (get_all_pages_concat _ _ _ _ _ _ recs).
  - intros p Hp Hnone. specialize (Hpages p Hp).
    unfold page_outcome, scrape_reviews in Hpages. rewrite Hnone in Hpages.
    cbv in Hpages. now injection Hpages.
Qed.

Lemma get_all_reviews_concatenates_pages_witness :
  exists r1 r2,
    (get_all_reviews second_page_down "seat" 3 empty_world).2
    = Returns [r1; r2; r1; r2].
Proof.
  eexists. eexists.
  refine (let H := get_all_reviews_concatenates_pages
                     second_page_down "seat" 3 empty_world
                     (fun p => match page_outcome second_page_down (BASE_URL "seat" p) with
                               | Returns rs => rs
                               | Raises _ => []
                               end) _ in _).
  - destruct H as [H _]. exact H.
  Unshelve.
  intros p Hp. simpl in Hp.
  destruct Hp as [<-|[<-|[<-|[]]]]; vm_compute; reflexivity.
Defined.

End Crawling.


(** ** The files the crawler writes *)

Section CrawlerFiles.
Import Soup Scraper Fixtures PaginationFixtures TableFixtures CrawlFixtures.

Definition dataset_path (section : string) : string :=
  "data/" +:+ section +:+ "_reviews.csv".

(** A turn of the loop leaves every file but the dataset of its section
    as it was. *)
Lemma crawl_section_other_files fetch section w path :
  path <> dataset_path section ->
  data_dir (crawl_section fetch section w).1 !! path = data_dir w !! path.
Proof.
  intros Hpath. unfold crawl_section.
  destruct (fetch (BASE_URL section 1)) as [soup|]; [|reflexivity].
  destruct (discover_num_pages soup) as [num_pages|e]; [|reflexivity].
  destruct (get_all_pages_prints fetch section num_pages (page_range num_pages) [])
    as (evs & o & Hp).
  unfold bind, get_all_reviews. rewrite Hp. destruct o as [reviews|e]; [|reflexivity].
  simpl. now apply lookup_insert_ne.
Qed.

Lemma for_each_other_files fetch (names : list string) w path :
  (forall section, In section names -> path <> dataset_path section) ->
  data_dir (for_each names (crawl_section fetch) w).1 !! path = data_dir w !! path.
Proof.
  revert w. induction names as [|section rest IH]; intros w Hpath; [reflexivity|].
  cbn [for_each]. unfold bind.
  pose proof (crawl_section_other_files fetch section w path
                (Hpath section (or_introl eq_refl))) as Hfirst.
  destruct (crawl_section fetch section w) as [w1 [[]|e]]; simpl in Hfirst.
  - rewrite IH by (intros s Hs; apply Hpath; now right). exact Hfirst.
  - exact Hfirst.
Qed.

(** X3.  Whatever the site answers and however the run ends, [main]
    touches no file but the three datasets [data/airline_reviews.csv],
    [data/seat_reviews.csv] and [data/lounge_reviews.csv]. *)
Theorem main_writes_only_datasets
        (fetch : string -> option node) (w : world) (path : string) :
  path <> "data/airline_reviews.csv" ->
  path <> "data/seat_reviews.csv" ->
  path <> "data/lounge_reviews.csv" ->
  data_dir (main fetch w).1 !! path = data_dir w !! path.
Proof.
  intros Hairline Hseat Hlounge. unfold main. apply for_each_other_files.
  intros section Hin. unfold sections in Hin. simpl in Hin.
  destruct Hin as [<-|[<-|[<-|[]]]]; assumption.
Qed.

Lemma main_writes_only_datasets_witness :
  data_dir (main (always seven_pages)
                 (World [] {[ "data/notes.txt" := [] ]})).1 !! "data/notes.txt"
  = Some [].
Proof.
  rewrite (main_writes_only_datasets
             (always seven_pages) (World [] {[ "data/notes.txt" := [] ]})
             "data/notes.txt"); [reflexivity | discriminate..].
Defined.

(** X4.  When the entry of the pagination block reads as zero or as a
    negative number, no page is harvested: the dataset of the category is
    written empty and the category is reported as completed. *)
Theorem crawl_section_without_pages
        (fetch : string -> option node) (section : string) (soup : node)
        (num_pages : Z) (w : world) :
  fetch (BASE_URL section 1) = Some soup ->
  discover_num_pages soup = Returns num_pages ->
  num_pages <= 0 ->
  crawl_section fetch section w
  = (World (stdout w ++ [SectionCompleted section])
           (<[dataset_path section := []]> (data_dir w)),
     Returns tt).
Proof.
  intros Hfetch Hpages Hle. unfold crawl_section. rewrite Hfetch, Hpages.
  unfold get_all_reviews, page_range.
  replace (Z.to_nat num_pages) with 0%nat by lia. reflexivity.
Qed.

Lemma crawl_section_without_pages_witness :
  crawl_section (always zero_pages) "lounge" empty_world
  = (World [SectionCompleted "lounge"] {[ "data/lounge_reviews.csv" := [] ]},
     Returns tt).
Proof.
  apply (crawl_section_without_pages (always zero_pages) "lounge" zero_pages 0 empty_world).
  - reflexivity.
  - reflexivity.
  - lia.
Defined.

(** X5.  When the first page of no category can be fetched, [main] ends
    normally: it reports the three categories in turn and writes no
    file. *)
Theorem main_all_requests_fail (fetch : string -> option node) (w : world) :
  (forall section, In section sections -> fetch (BASE_URL section 1) = None) ->
  main fetch w
  = (World (stdout w ++ [FailedMainPage "airline"; FailedMainPage "seat";
                          FailedMainPage "lounge"])
           (data_dir w),
     Returns tt).
Proof.
  intros Hfail. unfold main, sections in *. cbn [for_each]. unfold bind.
  rewrite (crawl_section_request_failed fetch "airline" w)
    by (apply Hfail; simpl; tauto).
  rewrite (crawl_section_request_failed fetch "seat")
    by (apply Hfail; simpl; tauto).
  rewrite (crawl_section_request_failed fetch "lounge")
    by (apply Hfail; simpl; tauto).
  simpl. unfold ret. now rewrite <- !app_assoc.
Qed.

Lemma main_all_requests_fail_witness :
  main unreachable empty_world
  = (World [FailedMainPage "airline"; FailedMainPage "seat"; FailedMainPage "lounge"] ∅,
     Returns tt).
Proof.
  apply (main_all_requests_fail unreachable empty_world).
  intros section _. reflexivity.
Defined.

End CrawlerFiles.


(** * Further properties of the field extractor *)

Module ExtractorFixtures.
Import Fixtures TableFixtures.

(** A fragment with its [time] element and no ratings table. *)
Definition fragment_without_table : node :=
  Tag "article" ["list-item"] ∅
    [ Tag "time" [] {[ "datetime" := "2024-01-02" ]} [txt "2nd January 2024"];
      Tag "h2" ["text_header"] ∅ [txt " Great flight "];
      Tag "span" [] {[ "itemprop" := "name" ]} [txt "John D"];
      Tag "div" [] {[ "itemprop" := "reviewBody" ]} [txt "Good."] ].

(** A row whose label cell holds a tag of its own. *)
Definition row_with_nested_label : node :=
  elem "tr" [ txt " "; elem "td" [ elem "b" [txt "Route"] ]; elem "td" [txt "LHR to JFK"] ].

End ExtractorFixtures.

Section ExtractorExtras.
Import Soup Scraper Fixtures TableFixtures ExtractorFixtures.

Lemma extract_review_total_witness :
  exists w' r, extract_review fragment_with_secondary_rating empty_world = (w', Returns r).
Proof.
  apply (extract_review_total fragment_with_secondary_rating empty_world).
  - vm_compute. discriminate.
  - intros table Htable. vm_compute in Htable. injection Htable as <-.
    vm_compute. repeat constructor.
Defined.

Lemma returned_record_has_core_fields_witness :
  exists r : review,
    (extract_review fragment_with_rating_row empty_world).2 = Returns r
    /\ is_Some (r !! "Country").
Proof.
  eexists. split; [reflexivity|].
  apply (returned_record_has_core_fields
           fragment_with_rating_row empty_world
           (extract_review fragment_with_rating_row empty_world).1).
  - reflexivity.
  - simpl. tauto.
Defined.

Lemma missing_table_is_caught_witness :
  exists r0 : review,
    r0 !! "Title" = Some "Great flight"
    /\ extract_review fragment_without_table empty_world
       = (World [ErrorParsingStats] ∅, Returns r0).
Proof.
  eexists. split.
  2: { apply (missing_table_is_caught fragment_without_table _ empty_world);
       reflexivity. }
  reflexivity.
Defined.

Lemma stat_value_reads_back_witness :
  PyStr.int (stat_value three_of_five) = Some 3.
Proof.
  apply (stat_value_reads_back three_of_five). reflexivity.
Defined.

Lemma core_fields_only review_block (r0 : review) key :
  core_fields review_block = Returns r0 ->
  is_Some (r0 !! key) -> In key core_field_names.
Proof.
  unfold core_fields. destruct (extract_date review_block) as [date|e]; [|discriminate].
  intros [= <-] [v Hv]. unfold core_field_names.
  repeat (apply lookup_insert_Some in Hv as [[<- _]|[_ Hv]]; [simpl; tauto|]).
  rewrite lookup_empty in Hv. discriminate.
Qed.

Lemma assign_all_lookup_inv (entries : list (string * string)) (r : review) key :
  is_Some (assign_all r entries !! key) ->
  is_Some (r !! key) \/ Exists (fun e => fst e = key) entries.
Proof.
  revert r. induction entries as [|[k v] entries IH]; intros r Hsome; [now left|].
  unfold assign_all in Hsome. simpl in Hsome.
  destruct (IH _ Hsome) as [Hhere|Hlater].
  - destruct (decide (k = key)) as [->|Hne].
    + right. now left.
    + left. now rewrite lookup_insert_ne in Hhere.
  - right. now right.
Qed.

(** X9.  A returned record invents no field: each of its fields is one of
    the six core fields or the label of a row of the ratings table. *)
Theorem record_fields_are_core_or_labels
        (review_block : node) (w w' : world) (r : review) (key : string) :
  extract_review review_block w = (w', Returns r) ->
  is_Some (r !! key) ->
  In key core_field_names
  \/ exists table stat,
      find review_block (Some "table") (ClassIs "review-ratings") = Some table
      /\ In stat (find_all table (Some "tr") NoFilter)
      /\ label_of stat = Some key.
Proof.
  intros Hret Hsome.
  destruct (extract_review_returns _ _ _ _ Hret) as (r0 & Hcore & Hcases).
  destruct Hcases as [(_ & -> & _)|(table & entries & Htable & Hall & -> & _)].
  - left. eapply core_fields_only; eassumption.
  - destruct (assign_all_lookup_inv _ _ _ Hsome) as [Hcorekey|Hentry].
    + left. eapply core_fields_only; eassumption.
    + right. exists table. clear -Htable Hall Hentry.
      induction Hall as [|stat e rows entries Hrow _ IH].
      * inversion Hentry.
      * inversion Hentry as [? ? Hhere|? ? Hlater]; subst.
        -- exists stat. repeat split; [assumption | now left |].
           now rewrite (row_entry_label _ _ Hrow).
        -- destruct (IH Hlater) as (stat' & ? & Hin & Hlabel).
           exists stat'. repeat split; [assumption | now right | assumption].
Qed.

Lemma record_fields_are_core_or_labels_witness :
  exists r : review,
    (extract_review fragment_with_rating_row empty_world).2 = Returns r
    /\ is_Some (r !! "Seat Comfort")
    /\ (In "Seat Comfort" core_field_names
        \/ exists table stat,
            find fragment_with_rating_row (Some "table") (ClassIs "review-ratings")
            = Some table
            /\ In stat (find_all table (Some "tr") NoFilter)
            /\ label_of stat = Some "Seat Comfort").
Proof.
  eexists. split; [reflexivity|]. split; [vm_compute; eauto|].
  eapply (record_fields_are_core_or_labels
            fragment_with_rating_row empty_world
            (extract_review fragment_with_rating_row empty_world).1).
  - reflexivity.
  - vm_compute. eauto.
Defined.

End ExtractorExtras.


Section ExtractorFields.
Import Soup Scraper Fixtures TableFixtures ExtractorFixtures.

(** X10.  Every label of the ratings table is a field of the returned
    record, and the field holds the value of the last row that carries the
    label. *)
Theorem row_label_is_stored
        (review_block table : node) (w w' : world) (r : review) (label : string) :
  extract_review review_block w = (w', Returns r) ->
  find review_block (Some "table") (ClassIs "review-ratings") = Some table ->
  Exists (fun stat => label_of stat = Some label) (find_all table (Some "tr") NoFilter) ->
  exists before stat after value_cell,
    find_all table (Some "tr") NoFilter = (before ++ stat :: after)%list
    /\ label_of stat = Some label
    /\ findChildren stat !! 1%nat = Some value_cell
    /\ Forall (fun later => label_of later <> Some label) after
    /\ r !! label = Some (stat_value value_cell).
Proof.
  intros Hret Htable Hrow.
  destruct (extract_review_returns _ _ _ _ Hret) as (r0 & Hr0 & [[Hnone _]|Hsome]);
    [congruence|].
  destruct Hsome as (table' & entries & Htable' & Hall & -> & _).
  assert (table' = table) as -> by congruence.
  assert (Exists (fun e : string * string => fst e = label) entries) as Hex.
  { clear -Hall Hrow. induction Hall as [|stat e rows entries Hentry _ IH].
    - inversion Hrow.
    - inversion Hrow as [? ? Hhere|? ? Hlater]; subst.
      + left. rewrite (row_entry_label _ _ Hentry) in Hhere. congruence.
      + right. now apply IH. }
  destruct (last_entry_with _ _ Hex) as (eb & value & ea & -> & Hafter).
  apply Forall2_app_inv_r in Hall as (before & rest & Hbefore & Hrest & Hrows).
  inversion Hrest as [|stat ? after ? Hstat Hafter2]; subst.
  pose proof (entries_labels _ _ Hafter2 _ Hafter) as Hlabels.
  pose proof (row_entry_label _ _ Hstat) as Hlabel.
  unfold row_entry in Hstat.
  destruct (findChildren stat !! 0%nat) as [label_cell|]; [|discriminate].
  destruct (findChildren stat !! 1%nat) as [value_cell|] eqn:Hc1; [|discriminate].
  injection Hstat as _ Hvalue.
  exists before, stat, after, value_cell.
  repeat split; try assumption.
  rewrite assign_all_last by assumption. now rewrite Hvalue.
Qed.

Lemma row_label_is_stored_witness :
  exists (r : review) before stat after value_cell,
    (extract_review fragment_with_secondary_rating empty_world).2 = Returns r
    /\ find_all (Tag "table" ["review-ratings"] ∅ [ stars_row ]) (Some "tr") NoFilter
       = (before ++ stat :: after)%list
    /\ label_of stat = Some "Seat Comfort"
    /\ findChildren stat !! 1%nat = Some value_cell
    /\ Forall (fun later => label_of later <> Some "Seat Comfort") after
    /\ r !! "Seat Comfort" = Some (stat_value value_cell).
Proof.
  eexists.
  destruct (row_label_is_stored
              fragment_with_secondary_rating
              (Tag "table" ["review-ratings"] ∅ [ stars_row ])
              empty_world
              (extract_review fragment_with_secondary_rating empty_world).1
              _ "Seat Comfort" eq_refl eq_refl)
    as (before & stat & after & value_cell & H).
  - left. reflexivity.
  - exists before, stat, after, value_cell. split; [reflexivity | exact H].
Defined.

Lemma core_fields_date review_block (r0 : review) t :
  core_fields review_block = Returns r0 ->
  find review_block (Some "time") NoFilter = Some t ->
  r0 !! "Date" = Some (get t "datetime" "N/A").
Proof.
  unfold core_fields, extract_date. intros Hcore Htime. rewrite Htime in Hcore.
  injection Hcore as <-. now simplify_map_eq.
Qed.

(** X11.  In a returned record, unless a row of the ratings table is
    labelled with the name of the field: Date is the [datetime] attribute
    of the first [time] element, and ["N/A"] when the element has no such
    attribute; Title, Author and Review are the trimmed texts of the first
    [h2] of class [text_header], of the first [span] with [itemprop="name"]
    and of the first [div] with [itemprop="reviewBody"], and ["N/A"] for an
    element that is not there. *)
Theorem core_rules_reach_record
        (review_block t : node) (w w' : world) (r : review) :
  extract_review review_block w = (w', Returns r) ->
  find review_block (Some "time") NoFilter = Some t ->
  (no_row_labelled "Date" review_block ->
   r !! "Date" = Some (get t "datetime" "N/A"))
  /\ (no_row_labelled "Title" review_block ->
      r !! "Title"
      = Some match find review_block (Some "h2") (ClassIs "text_header") with
             | Some title => PyStr.strip (text title)
             | None => "N/A"
             end)
  /\ (no_row_labelled "Author" review_block ->
      r !! "Author"
      = Some match find review_block (Some "span") (AttrIs "itemprop" "name") with
             | Some author => PyStr.strip (text author)
             | None => "N/A"
             end)
  /\ (no_row_labelled "Review" review_block ->
      r !! "Review"
      = Some match find review_block (Some "div") (AttrIs "itemprop" "reviewBody") with
             | Some review_body => PyStr.strip (text review_body)
             | None => "N/A"
             end).
Proof.
  intros Hret Htime.
  destruct (extract_review_returns _ _ _ _ Hret) as (r0 & Hcore & _).
  destruct (core_fields_lookup _ _ Hcore) as (_ & Htitle & Hauthor & _ & Hbody).
  pose proof (core_fields_date _ _ _ Hcore Htime) as Hdate.
  repeat split; intros Hno;
    rewrite (core_field_kept _ _ _ _ _ _ Hret Hcore Hno); assumption.
Qed.

Lemma core_rules_reach_record_witness :
  exists r : review,
    (extract_review fragment_without_table empty_world).2 = Returns r
    /\ r !! "Date" = Some "2024-01-02"
    /\ r !! "Title" = Some "Great flight"
    /\ r !! "Author" = Some "John D"
    /\ r !! "Review" = Some "Good.".
Proof.
  eexists. split; [reflexivity|].
  destruct (core_rules_reach_record
              fragment_without_table
              (Tag "time" [] {[ "datetime" := "2024-01-02" ]} [txt "2nd January 2024"])
              empty_world
              (extract_review fragment_without_table empty_world).1
              _ eq_refl eq_refl)
    as (Hdate & Htitle & Hauthor & Hbody).
  assert (forall field, no_row_labelled field fragment_without_table) as Hno.
  { intros field table Htable. vm_compute in Htable. discriminate. }
  split; [|split; [|split]].
  - apply (Hdate (Hno _)).
  - apply (Htitle (Hno _)).
  - apply (Hauthor (Hno _)).
  - apply (Hbody (Hno _)).
Defined.

Lemma findChildren_skips_strings name classes attrs (strs : list string) contents :
  findChildren (Tag name classes attrs (List.map NavigableString strs ++ contents))
  = findChildren (Tag name classes attrs contents).
Proof.
  unfold findChildren, find_all. induction strs as [|s strs IH]; [reflexivity|].
  simpl. simpl in IH. exact IH.
Qed.

(** X12.  The cells of a row are the tags below it at any depth, in
    document order, strings left out: when the first tag of the row holds
    a tag of its own, that inner tag is taken for the value cell, not the
    next cell of the row. *)
Theorem stat_row_takes_nested_tag
        (strs : list string) (name : string) (classes : list string)
        (attrs : gmap string string)
        (label_name : string) (label_classes : list string)
        (label_attrs : gmap string string)
        (inner_name : string) (inner_classes : list string)
        (inner_attrs : gmap string string) (inner_contents : list node)
        (label_rest rest : list node) (r : review) :
  stat_row (Tag name classes attrs
                (List.map NavigableString strs
                 ++ Tag label_name label_classes label_attrs
                        (Tag inner_name inner_classes inner_attrs inner_contents
                         :: label_rest)
                 :: rest)) r
  = Returns (<[PyStr.strip
                 (text (Tag label_name label_classes label_attrs
                            (Tag inner_name inner_classes inner_attrs inner_contents
                             :: label_rest)))
               := stat_value (Tag inner_name inner_classes inner_attrs inner_contents)]> r).
Proof.
  unfold stat_row. rewrite findChildren_skips_strings. reflexivity.
Qed.

End ExtractorFields.

Example nested_label_row :
  Scraper.stat_row ExtractorFixtures.row_with_nested_label ∅
  = Returns {[ "Route" := "Route" ]}.
Proof. reflexivity. Qed.


(** * Further properties of the pseudonymizer *)

Section PseudonymizerFiles.
Import Pandas Pseudonymize DatasetFixtures.

Variable float_repr : string -> string.

Lemma pseudonymized_names df out :
  pseudonymized df = Returns out -> ~ In "Author" (List.map fst (columns out)).
Proof.
  unfold pseudonymized. destruct (author_ids df) as [ids|e]; [|discriminate].
  intros [= <-]. unfold drop. cbn [columns]. intros Hin.
  apply in_map_iff in Hin as (c & Hname & Hc).
  apply filter_In in Hc as [_ Hkeep].
  rewrite Hname, String.eqb_refl in Hkeep. discriminate.
Qed.

Lemma skip_without_author filepath st file :
  disk st !! filepath = Some file ->
  ~ In "Author" (header file) ->
  disk (process_dataset float_repr filepath st) = disk st.
Proof.
  intros Hfile Hno. unfold process_dataset. rewrite Hfile.
  destruct (read_csv file) as [df|e] eqn:Hread; [|reflexivity].
  destruct (has_column df "Author") eqn:Hhas.
  - exfalso. apply Hno. now apply (has_column_read_csv file df).
  - reflexivity.
Qed.

(** What a call does to the files: nothing, or the file is rewritten
    without its Author column. *)
Lemma process_dataset_disk filepath st :
  disk (process_dataset float_repr filepath st) = disk st
  \/ exists file',
      disk (process_dataset float_repr filepath st) = <[filepath := file']> (disk st)
      /\ ~ In "Author" (header file').
Proof.
  unfold process_dataset. destruct (disk st !! filepath) as [file|]; [|now left].
  destruct (read_csv file) as [df|e]; [|now left].
  destruct (negb (has_column df "Author") || negb (has_column df "Country"));
    [now left|].
  destruct (pseudonymized df) as [out|e] eqn:Hout; [|now left].
  right. eexists. split; [reflexivity|].
  cbn [to_csv header]. eapply pseudonymized_names. exact Hout.
Qed.

Lemma process_dataset_disk_cases_other filepath path st :
  path <> filepath ->
  disk (process_dataset float_repr filepath st) !! path = disk st !! path.
Proof.
  intros Hpath.
  destruct (process_dataset_disk filepath st) as [->|(file' & -> & _)];
    [reflexivity | now apply lookup_insert_ne].
Qed.

(** X14.  A call touches no file but its own: whatever happens to one
    dataset, the other files are as they were. *)
Theorem process_dataset_other_files (filepath path : string) (st : state) :
  path <> filepath ->
  disk (process_dataset float_repr filepath st) !! path = disk st !! path.
Proof.
  intros Hpath.
  destruct (process_dataset_disk filepath st) as [->|(file' & -> & _)];
    [reflexivity | now apply lookup_insert_ne].
Qed.

(** What a call does to the files depends on the files alone, not on the
    log. *)
Lemma process_dataset_disk_of_disk filepath st st' :
  disk st = disk st' ->
  disk (process_dataset float_repr filepath st)
  = disk (process_dataset float_repr filepath st').
Proof.
  destruct st as [l d], st' as [l' d']. cbn [disk]. intros ->.
  unfold process_dataset. cbn [disk log logging].
  destruct (d' !! filepath) as [file|]; [|reflexivity].
  destruct (read_csv file) as [df|e]; [|reflexivity].
  destruct (negb (has_column df "Author") || negb (has_column df "Country"));
    [reflexivity|].
  destruct (pseudonymized df); reflexivity.
Qed.

(** X15.  Running the pseudonymizer on a file a second time changes no
    file: a dataset that was rewritten has lost its Author column and is
    skipped from then on. *)
Theorem process_dataset_twice (filepath : string) (st : state) :
  disk (process_dataset float_repr filepath (process_dataset float_repr filepath st))
  = disk (process_dataset float_repr filepath st).
Proof.
  destruct (process_dataset_disk filepath st) as [Hsame|(file' & Hwritten & Hno)].
  - rewrite (process_dataset_disk_of_disk filepath _ st Hsame). reflexivity.
  - apply (skip_without_author filepath _ file'); [|assumption].
    rewrite Hwritten. apply lookup_insert_eq.
Qed.

Lemma substring_all (s : string) : substring 0 (String.length s) s = s.
Proof. induction s as [|c s IH]; [reflexivity|]. simpl. now rewrite IH. Qed.

Lemma substring_split (s : string) (k : nat) :
  (k <= String.length s)%nat ->
  s = substring 0 k s +:+ substring k (String.length s - k) s.
Proof.
  revert k. induction s as [|c s IH]; intros k Hk.
  - simpl in Hk. replace k with 0%nat by lia. reflexivity.
  - destruct k as [|k].
    + change (substring 0 0 (String c s)) with "". rewrite append_nil_l.
      rewrite Nat.sub_0_r. now rewrite substring_all.
    + simpl in Hk. cbn [substring String.length Nat.sub]. rewrite append_cons.
      f_equal. apply IH. lia.
Qed.

(** A name that [endswith] accepts is a text followed by the suffix. *)
Lemma endswith_suffix (s suffix : string) :
  endswith s suffix = true -> exists pre, s = pre +:+ suffix.
Proof.
  unfold endswith. intros H. apply andb_true_iff in H as [Hlen Heq].
  apply Nat.leb_le in Hlen. apply String.eqb_eq in Heq.
  exists (substring 0 (String.length s - String.length suffix) s).
  pose proof (substring_split s (String.length s - String.length suffix)) as Hsplit.
  replace (String.length s - (String.length s - String.length suffix))%nat
    with (String.length suffix) in Hsplit by lia.
  rewrite Heq in Hsplit. apply Hsplit. lia.
Qed.

(** X17.  The run touches no file of the directory but those whose name
    ends in [_reviews.csv]. *)
Theorem main_touches_only_datasets (listing : list string) (st : state) (path : string) :
  (forall pre, path <> "data/" +:+ pre +:+ "_reviews.csv") ->
  disk (Pseudonymize.main float_repr listing st) !! path = disk st !! path.
Proof.
  intros Hpath. revert st. induction listing as [|filename rest IH]; intros st;
    [reflexivity|].
  cbn [Pseudonymize.main].
  destruct (endswith filename "_reviews.csv") eqn:Hends; [|apply IH].
  rewrite IH. apply process_dataset_disk_cases_other.
  destruct (endswith_suffix _ _ Hends) as [pre ->]. apply Hpath.
Qed.

Lemma process_dataset_logs_one filepath st :
  exists entry,
    log (process_dataset float_repr filepath st) = (log st ++ [entry])%list.
Proof.
  unfold process_dataset. destruct (disk st !! filepath) as [file|]; [|eexists; reflexivity].
  destruct (read_csv file) as [df|e]; [|eexists; reflexivity].
  destruct (negb (has_column df "Author") || negb (has_column df "Country"));
    [eexists; reflexivity|].
  destruct (pseudonymized df); eexists; reflexivity.
Qed.

(** X18.  The run keeps the log it finds and adds one line for each name
    of the directory that ends in [_reviews.csv], be it a completion, a
    warning or an error, and no line for the other names. *)
Theorem main_logs_one_line_per_dataset (listing : list string) (st : state) :
  exists entries,
    log (Pseudonymize.main float_repr listing st) = (log st ++ entries)%list
    /\ length entries
       = length (List.filter (fun filename => endswith filename "_reviews.csv") listing).
Proof.
  revert st. induction listing as [|filename rest IH]; intros st.
  - exists []. split; [now rewrite app_nil_r | reflexivity].
  - cbn [Pseudonymize.main List.filter].
    destruct (endswith filename "_reviews.csv").
    + destruct (process_dataset_logs_one ("data/" +:+ filename) st) as [entry Hentry].
      destruct (IH (process_dataset float_repr ("data/" +:+ filename) st))
        as (entries & Hlog & Hlen).
      exists (entry :: entries). split.
      * rewrite Hlog, Hentry. now rewrite <- app_assoc.
      * simpl. now rewrite Hlen.
    + apply IH.
Qed.

End PseudonymizerFiles.

Section PseudonymizerExamples.
Import Pandas Pseudonymize DatasetFixtures.

Lemma process_dataset_other_files_witness :
  disk (process_dataset no_floats "data/airline_reviews.csv"
          (State [] {[ "data/airline_reviews.csv" := missing_country;
                       "data/seat_reviews.csv" := separator_clash ]}))
    !! "data/seat_reviews.csv"
  = Some separator_clash.
Proof.
  rewrite (process_dataset_other_files
             no_floats "data/airline_reviews.csv" "data/seat_reviews.csv");
    [reflexivity | discriminate].
Defined.

Lemma append_length (a b : string) :
  String.length (a +:+ b) = (String.length a + String.length b)%nat.
Proof.
  induction a as [|c a IH]; [now rewrite append_nil_l|].
  rewrite append_cons. simpl. now rewrite IH.
Qed.

Lemma main_touches_only_datasets_witness :
  disk (Pseudonymize.main no_floats
          ["notes.txt"; "airline_reviews.csv"]
          (State [] {[ "data/notes.txt" := separator_clash;
                       "data/airline_reviews.csv" := missing_country ]}))
    !! "data/notes.txt"
  = Some separator_clash.
Proof.
  rewrite (main_touches_only_datasets
             no_floats ["notes.txt"; "airline_reviews.csv"] _ "data/notes.txt");
    [reflexivity|].
  intros pre H. apply (f_equal String.length) in H.
  rewrite !append_length in H. simpl in H. lia.
Defined.

End PseudonymizerExamples.


Section PseudonymizerOutput.
Import Pandas Pseudonymize DatasetFixtures.

Lemma set_column_new (cols : list (string * series)) name s :
  ~ In name (List.map fst cols) ->
  set_column cols name s = (cols ++ [(name, s)])%list.
Proof.
  induction cols as [|c cols IH]; intros Hno; [reflexivity|].
  simpl. destruct (String.eqb_spec (fst c) name) as [Heq|Hne].
  - exfalso. apply Hno. now left.
  - f_equal. apply IH. intros Hin. apply Hno. now right.
Qed.

Lemma factorize_from_length uniques values :
  length (factorize_from uniques values) = length values.
Proof.
  revert uniques. induction values as [|[k|] r IH]; intros uniques; simpl;
    [reflexivity | destruct (index_of k uniques); simpl; now rewrite IH
    | now rewrite IH].
Qed.

(** X16.  On a frame whose Author and Country columns are text, with one
    cell for each row, and which has no column [author_id] yet, lines 21
    and 22 give the frame that is written: the columns named Author are
    gone, the other columns are as they were and in their order, and the
    column [author_id] comes last, with one identifier for each row. *)
Theorem pseudonymized_columns
        (df : DataFrame) (authors countries : list (option string)) :
  column df "Author" = Some (Object authors) ->
  column df "Country" = Some (Object countries) ->
  length authors = nrows df ->
  length countries = nrows df ->
  ~ In "author_id" (List.map fst (columns df)) ->
  exists ids,
    author_ids df = Returns ids
    /\ length ids = nrows df
    /\ pseudonymized df
       = Returns (Frame (nrows df)
                        (List.filter (fun c => negb (String.eqb (fst c) "Author"))
                                     (columns df)
                         ++ [("author_id", Int64 ids)])).
Proof.
  intros Hauthor Hcountry Hla Hlc Hfresh.
  assert (exists ids, author_ids df = Returns ids /\ length ids = nrows df)
    as (ids & Hids & Hlen).
  { unfold author_ids. rewrite Hauthor, Hcountry. cbn [add_str add_series].
    eexists. split; [reflexivity|].
    unfold factorize. rewrite factorize_from_length, length_zip_with, length_map. lia. }
  exists ids. split; [exact Hids|]. split; [exact Hlen|].
  unfold pseudonymized. rewrite Hids. rewrite set_column_new by assumption.
  unfold drop. cbn [nrows columns]. rewrite List.filter_app. reflexivity.
Qed.

Lemma pseudonymized_columns_witness :
  exists ids,
    author_ids (Frame 2 [ ("Date", Object [Some "d1"; Some "d2"]);
                          ("Author", Object [Some "Alice"; Some "Bob"]);
                          ("Country", Object [Some "UK"; None]) ])
    = Returns ids
    /\ length ids = 2%nat
    /\ pseudonymized (Frame 2 [ ("Date", Object [Some "d1"; Some "d2"]);
                                ("Author", Object [Some "Alice"; Some "Bob"]);
                                ("Country", Object [Some "UK"; None]) ])
       = Returns (Frame 2 [ ("Date", Object [Some "d1"; Some "d2"]);
                            ("Country", Object [Some "UK"; None]);
                            ("author_id", Int64 ids) ]).
Proof.
  apply (pseudonymized_columns
           (Frame 2 [ ("Date", Object [Some "d1"; Some "d2"]);
                      ("Author", Object [Some "Alice"; Some "Bob"]);
                      ("Country", Object [Some "UK"; None]) ])
           [Some "Alice"; Some "Bob"] [Some "UK"; None]).
  - reflexivity.
  - reflexivity.
  - reflexivity.
  - reflexivity.
  - simpl. intros H. repeat (destruct H as [H|H]; [discriminate|]). exact H.
Defined.

End PseudonymizerOutput.


Section PseudonymizerIds.
Import Pandas Pseudonymize DatasetFixtures.

Lemma present_rows_same_id_iff_witness :
  exists ids,
    author_ids (Frame 3 [ ("Author", Object [Some "Alice"; Some "Bob"; Some "Alice"]);
                          ("Country", Object [Some "UK"; Some "UK"; Some "UK"]) ])
    = Returns ids
    /\ (ids !! 0%nat = ids !! 2%nat <-> "Alice" = "Alice" /\ "UK" = "UK")
    /\ (ids !! 0%nat = ids !! 1%nat <-> "Alice" = "Bob" /\ "UK" = "UK").
Proof.
  destruct (present_rows_same_id_iff
              (Frame 3 [ ("Author", Object [Some "Alice"; Some "Bob"; Some "Alice"]);
                         ("Country", Object [Some "UK"; Some "UK"; Some "UK"]) ])
              [Some "Alice"; Some "Bob"; Some "Alice"]
              [Some "UK"; Some "UK"; Some "UK"]
              eq_refl eq_refl) as (ids & Hids & Hrows).
  assert (forall name, In name ["Alice"; "Bob"] -> no_bar name) as Hbar.
  { intros name [<-|[<-|[]]] H; vm_compute in H;
      repeat (destruct H as [H|H]; [discriminate|]); exact H. }
  exists ids. split; [exact Hids|]. split.
  - apply (Hrows 0%nat 2%nat "Alice" "UK" "Alice" "UK"); try reflexivity;
      apply Hbar; simpl; tauto.
  - apply (Hrows 0%nat 1%nat "Alice" "UK" "Bob" "UK"); try reflexivity;
      apply Hbar; simpl; tauto.
Defined.

(** Identifiers are given out in the order of the rows: past the ones
    that stand for the values known before, an identifier shows up only
    after every smaller one has. *)
Lemma factorize_from_dense uniques values j m :
  factorize_from uniques values !! j = Some (Z.of_nat m) ->
  forall k, (length uniques <= k < m)%nat ->
            exists i, (i < j)%nat
                      /\ factorize_from uniques values !! i = Some (Z.of_nat k).
Proof.
  revert uniques j. induction values as [|[key|] r IH]; intros uniques j Hj k Hk.
  - destruct j; discriminate.
  - simpl in Hj |- *. destruct (index_of key uniques) as [p|] eqn:Hkey.
    + destruct j as [|j]; simpl in Hj.
      * injection Hj as Hp. apply Nat2Z.inj in Hp. subst p.
        apply index_of_lookup in Hkey. apply lookup_lt_Some in Hkey. lia.
      * destruct (IH uniques j Hj k Hk) as (i & Hi & Hcode).
        exists (S i). split; [lia | exact Hcode].
    + destruct j as [|j]; simpl in Hj.
      * injection Hj as Hp. apply Nat2Z.inj in Hp. lia.
      * destruct (decide (k = length uniques)) as [->|Hne].
        -- exists 0%nat. split; [lia | reflexivity].
        -- destruct (IH (uniques ++ [key])%list j Hj k) as (i & Hi & Hcode).
           { rewrite length_app. simpl. lia. }
           exists (S i). split; [lia | exact Hcode].
  - simpl in Hj |- *. destruct j as [|j]; simpl in Hj.
    + injection Hj as Hp. lia.
    + destruct (IH uniques j Hj k Hk) as (i & Hi & Hcode).
      exists (S i). split; [lia | exact Hcode].
Qed.

(** X20.  The identifiers of a dataset are numbered in the order of the
    rows: every identifier is [-1] or a natural number, and the identifier
    [n + 1] stands in a row only when [n] stands in a row above it. *)
Theorem author_ids_in_row_order (df : DataFrame) (ids : list Z) (j : nat) (id : Z) :
  author_ids df = Returns ids ->
  ids !! j = Some id ->
  id = -1
  \/ exists n, id = Z.of_nat n
               /\ forall k, (k < n)%nat ->
                            exists i, (i < j)%nat /\ ids !! i = Some (Z.of_nat k).
Proof.
  intros Hids Hj.
  assert (exists keys, ids = factorize keys) as [keys ->].
  { unfold author_ids in Hids.
    destruct (column df "Author") as [author|]; [|discriminate].
    destruct (column df "Country") as [country|]; [|discriminate].
    destruct (add_str author "|") as [tagged|]; [|discriminate].
    destruct (add_series tagged country) as [keys|]; [|discriminate].
    injection Hids as <-. eauto. }
  destruct (keys !! j) as [[key|]|] eqn:Hkey.
  - right. destruct (factorize_present _ _ _ Hkey) as (n & Hn & _).
    exists n. split; [congruence|].
    intros k Hk. apply (factorize_from_dense [] keys j n); [exact Hn | simpl; lia].
  - left. rewrite (factorize_missing _ _ Hkey) in Hj. congruence.
  - apply lookup_ge_None in Hkey. apply lookup_lt_Some in Hj.
    unfold factorize in Hj. rewrite factorize_from_length in Hj. lia.
Qed.

Lemma author_ids_in_row_order_witness :
  (1 : Z) = -1
  \/ exists n, (1 : Z) = Z.of_nat n
               /\ forall k, (k < n)%nat ->
                            exists i, (i < 5)%nat
                                      /\ [0; 0; -1; -1; 0; 1] !! i = Some (Z.of_nat k).
Proof.
  apply (author_ids_in_row_order
           (Frame 6 [ ("Author", Object [Some "a|b"; Some "a"; Some "Alice"; Some "Bob";
                                         Some "a"; Some "z"]);
                      ("Country", Object [Some "c"; Some "b|c"; None; None;
                                          Some "b|c"; Some "y"]) ])
           [0; 0; -1; -1; 0; 1] 5%nat 1).
  - reflexivity.
  - reflexivity.
Defined.

End PseudonymizerIds.


(** * The dataset of a category *)

Section CategoryDataset.
Import Soup Scraper Fixtures PaginationFixtures TableFixtures CrawlFixtures.

(** X21.  When the first page of a category gives a page count and
    every page up to that count yields its records, the dataset of the
    category is written, over what was there, with the records of page 1,
    then those of page 2, and so on; the other files stay as they were and
    the turn ends normally. *)
Theorem crawl_section_dataset
        (fetch : string -> option node) (section : string) (soup : node)
        (num_pages : Z) (recs : Z -> list review) (w : world) :
  fetch (BASE_URL section 1) = Some soup ->
  discover_num_pages soup = Returns num_pages ->
  (forall p, In p (page_range num_pages) ->
             page_outcome fetch (BASE_URL section p) = Returns (recs p)) ->
  (crawl_section fetch section w).2 = Returns tt
  /\ data_dir (crawl_section fetch section w).1
     = <[dataset_path section := concat (List.map recs (page_range num_pages))]>
         (data_dir w).
Proof.
  intros Hfetch Hpages Hrecs. unfold crawl_section. rewrite Hfetch, Hpages.
  destruct (get_all_pages_prints fetch section num_pages (page_range num_pages) [])
    as (evs & o & Hp).
  pose proof (get_all_pages_concat fetch section num_pages (page_range num_pages)
                [] w recs Hrecs) as Hout.
  unfold bind, get_all_reviews. rewrite Hp in Hout |- *. simpl in Hout. subst o.
  split; reflexivity.
Qed.

Lemma crawl_section_dataset_witness :
  exists r1 r2,
    (crawl_section (always CrawlFixtures.two_reviews_of_two_pages)
                   "seat" (World [] {[ "data/seat_reviews.csv" := [] ]})).2
    = Returns tt
    /\ data_dir (crawl_section (always CrawlFixtures.two_reviews_of_two_pages)
                   "seat" (World [] {[ "data/seat_reviews.csv" := [] ]})).1
       = {[ "data/seat_reviews.csv" := [r1; r2; r1; r2] ]}.
Proof.
  destruct (crawl_section_dataset
              (always two_reviews_of_two_pages) "seat" two_reviews_of_two_pages 2
              (fun _ => match page_outcome (always two_reviews_of_two_pages) "any" with
                        | Returns rs => rs
                        | Raises _ => []
                        end)
              (World [] {[ "data/seat_reviews.csv" := [] ]}))
    as [Hret Hfiles].
  - reflexivity.
  - reflexivity.
  - intros p _. vm_compute. reflexivity.
  - eexists. eexists. split; [exact Hret|]. rewrite Hfiles. vm_compute. reflexivity.
Defined.

End CategoryDataset.


(** * Trimmed texts *)

Section Trimmed.
Import Soup Scraper Fixtures TableFixtures ExtractorFixtures.

Definition head_ok (s : list ascii) : Prop :=
  match s with
  | [] => True
  | c :: _ => PyStr.isspace c = false
  end.

Lemma lstrip_head_ok s : head_ok (PyStr.lstrip_chars s).
Proof.
  induction s as [|c s IH]; [exact I|].
  simpl. destruct (PyStr.isspace c) eqn:Hc; [exact IH | exact Hc].
Qed.

Lemma lstrip_id s : head_ok s -> PyStr.lstrip_chars s = s.
Proof. destruct s as [|c s]; [reflexivity|]. simpl. now intros ->. Qed.

Lemma lstrip_suffix s : exists pre, s = (pre ++ PyStr.lstrip_chars s)%list.
Proof.
  induction s as [|c s [pre IH]]; [now exists []|].
  simpl. destruct (PyStr.isspace c).
  - exists (c :: pre). simpl. now f_equal.
  - now exists [].
Qed.

Lemma head_ok_prefix (u rest : list ascii) : head_ok (u ++ rest) -> u <> [] -> head_ok u.
Proof. destruct u as [|c u]; [congruence | simpl; auto]. Qed.

Lemma strip_chars_ok s :
  head_ok (PyStr.strip_chars s) /\ head_ok (rev (PyStr.strip_chars s)).
Proof.
  unfold PyStr.strip_chars, PyStr.rstrip_chars.
  set (t := PyStr.lstrip_chars s).
  pose proof (lstrip_head_ok s) as Ht. fold t in Ht.
  split.
  - destruct (lstrip_suffix (rev t)) as [pre Hpre].
    assert (t = (rev (PyStr.lstrip_chars (rev t)) ++ rev pre)%list) as Hsplit.
    { rewrite <- rev_app_distr, <- Hpre. now rewrite rev_involutive. }
    destruct (rev (PyStr.lstrip_chars (rev t))) as [|c u] eqn:Hu; [exact I|].
    rewrite Hsplit in Ht. exact Ht.
  - rewrite rev_involutive. apply lstrip_head_ok.
Qed.

Lemma strip_chars_id s :
  head_ok s -> head_ok (rev s) -> PyStr.strip_chars s = s.
Proof.
  intros Hhead Hlast. unfold PyStr.strip_chars, PyStr.rstrip_chars.
  rewrite (lstrip_id s Hhead), (lstrip_id (rev s) Hlast). apply rev_involutive.
Qed.

(** A text is trimmed when [strip] leaves it as it is. *)
Definition trimmed (s : string) : Prop := PyStr.strip s = s.

Lemma strip_trimmed s : trimmed (PyStr.strip s).
Proof.
  unfold trimmed, PyStr.strip. rewrite list_ascii_of_string_of_list_ascii.
  destruct (strip_chars_ok (list_ascii_of_string s)) as [Hhead Hlast].
  now rewrite strip_chars_id.
Qed.

Lemma digits_trimmed s :
  Forall (fun c => PyStr.is_digit c = true) (list_ascii_of_string s) -> trimmed s.
Proof.
  intros Hdigits. unfold trimmed, PyStr.strip.
  rewrite strip_chars_digits by assumption. apply string_of_list_ascii_of_string.
Qed.

Lemma str_of_nat_trimmed n : trimmed (PyStr.str_of_nat n).
Proof.
  apply digits_trimmed. unfold PyStr.str_of_nat.
  destruct (Nat.to_uint n) as [|d|d|d|d|d|d|d|d|d|d];
    [repeat constructor | ..];
    match goal with
    | |- Forall _ (list_ascii_of_string (NilZero.string_of_uint ?u)) =>
        exact (uint_chars_digits u)
    end.
Qed.

Lemma stat_value_trimmed cell : trimmed (stat_value cell).
Proof.
  unfold stat_value. destruct (String.eqb _ "12345");
    [apply str_of_nat_trimmed | apply strip_trimmed].
Qed.

Lemma text_or_NA_trimmed x : trimmed (text_or_NA x).
Proof. destruct x; [apply strip_trimmed | reflexivity]. Qed.

Lemma extract_rating_trimmed review_block : trimmed (extract_rating review_block).
Proof.
  unfold extract_rating.
  destruct (find review_block (Some "span") (AttrIs "itemprop" "ratingValue"));
    [apply strip_trimmed|].
  destruct (find review_block (Some "div") (ClassIs "rating-10"));
    [apply strip_trimmed | reflexivity].
Qed.

Lemma assign_all_lookup_value (entries : list (string * string)) (r : review) key v :
  assign_all r entries !! key = Some v ->
  r !! key = Some v \/ In (key, v) entries.
Proof.
  revert r. induction entries as [|[k x] entries IH]; intros r Hv; [now left|].
  unfold assign_all in Hv. simpl in Hv.
  destruct (IH _ Hv) as [Hhere|Hlater]; [|right; now right].
  apply lookup_insert_Some in Hhere as [[-> ->]|[_ Hr]]; [right; now left | now left].
Qed.

Lemma row_entry_trimmed stat key v :
  row_entry stat = Some (key, v) -> trimmed key /\ trimmed v.
Proof.
  unfold row_entry.
  destruct (findChildren stat !! 0%nat) as [c0|]; [|discriminate].
  destruct (findChildren stat !! 1%nat) as [c1|]; [|discriminate].
  intros [= <- <-]. split; [apply strip_trimmed | apply stat_value_trimmed].
Qed.

(** X22.  In a returned record every field name is trimmed, and so is
    every value but those of Date and Country: no other text of the record
    begins or ends with white space. *)
Theorem record_texts_are_trimmed
        (review_block : node) (w w' : world) (r : review) (key v : string) :
  extract_review review_block w = (w', Returns r) ->
  r !! key = Some v ->
  trimmed key /\ (key <> "Date" -> key <> "Country" -> trimmed v).
Proof.
  intros Hret Hv.
  destruct (extract_review_returns _ _ _ _ Hret) as (r0 & Hcore & Hcases).
  assert (forall x, r0 !! key = Some x ->
                    trimmed key /\ (key <> "Date" -> key <> "Country" -> trimmed x))
    as Hcorekey.
  { intros x Hx. unfold core_fields in Hcore.
    destruct (extract_date review_block) as [date|]; [|discriminate].
    injection Hcore as <-.
    apply lookup_insert_Some in Hx as [[<- <-]|[_ Hx]];
      [split; [reflexivity | intros _ _; apply text_or_NA_trimmed]|].
    apply lookup_insert_Some in Hx as [[<- <-]|[_ Hx]];
      [split; [reflexivity | congruence]|].
    apply lookup_insert_Some in Hx as [[<- <-]|[_ Hx]];
      [split; [reflexivity | intros _ _; apply text_or_NA_trimmed]|].
    apply lookup_insert_Some in Hx as [[<- <-]|[_ Hx]];
      [split; [reflexivity | intros _ _; apply text_or_NA_trimmed]|].
    apply lookup_insert_Some in Hx as [[<- <-]|[_ Hx]];
      [split; [reflexivity | intros _ _; apply extract_rating_trimmed]|].
    apply lookup_insert_Some in Hx as [[<- <-]|[_ Hx]];
      [split; [reflexivity | congruence]|].
    rewrite lookup_empty in Hx. discriminate. }
  destruct Hcases as [(_ & -> & _)|(table & entries & _ & Hall & -> & _)];
    [now apply Hcorekey|].
  destruct (assign_all_lookup_value _ _ _ _ Hv) as [Hr0|Hentry];
    [now apply Hcorekey|].
  assert (exists stat, row_entry stat = Some (key, v)) as [stat Hstat].
  { clear -Hall Hentry. induction Hall as [|stat e rows entries Hrow _ IH].
    - destruct Hentry.
    - destruct Hentry as [->|Hin]; [eauto | now apply IH]. }
  destruct (row_entry_trimmed _ _ _ Hstat) as [Hkey Hval].
  split; [assumption | intros _ _; assumption].
Qed.

Lemma record_texts_are_trimmed_witness :
  exists r : review,
    (extract_review fragment_without_table empty_world).2 = Returns r
    /\ r !! "Title" = Some "Great flight"
    /\ trimmed "Title"
    /\ ("Title" <> "Date" -> "Title" <> "Country" -> trimmed "Great flight").
Proof.
  eexists. split; [reflexivity|]. split; [reflexivity|].
  apply (record_texts_are_trimmed
           fragment_without_table empty_world
           (extract_review fragment_without_table empty_world).1
           match (extract_review fragment_without_table empty_world).2 with
           | Returns r => r
           | Raises _ => ∅
           end
           "Title" "Great flight").
  - reflexivity.
  - reflexivity.
Defined.

End Trimmed.


(** * Which tags count as filled stars *)

Section FilledStars.
Import Soup Scraper Fixtures TableFixtures.

(** A class token, as the parser splits the attribute, holds no space. *)
Definition no_space (s : string) : Prop :=
  ~ In " "%char (list_ascii_of_string s).

Lemma chars_append (a b : string) :
  list_ascii_of_string (a +:+ b)
  = (list_ascii_of_string a ++ list_ascii_of_string b)%list.
Proof.
  induction a as [|c a IH]; [now rewrite append_nil_l|].
  rewrite append_cons. simpl. now rewrite IH.
Qed.

Lemma space_join_inj (a a' c c' : string) :
  no_space a -> no_space a' ->
  a +:+ " " +:+ c = a' +:+ " " +:+ c' ->
  a = a' /\ c = c'.
Proof.
  revert a'. induction a as [|x a IH]; intros [|x' a'] Ha Ha' Heq;
    repeat rewrite ?append_nil_l, ?append_cons in Heq.
  - injection Heq as ->. split; reflexivity.
  - injection Heq as <- _. exfalso. apply Ha'. left. reflexivity.
  - injection Heq as -> _. exfalso. apply Ha. left. reflexivity.
  - injection Heq as -> Heq.
    destruct (IH a') as [-> ->]; try assumption.
    + intros Hin. apply Ha. right. exact Hin.
    + intros Hin. apply Ha'. right. exact Hin.
    + split; reflexivity.
Qed.

Lemma join_two_has_space (x y : string) (rest : list string) :
  In " "%char (list_ascii_of_string (PyStr.join " " (x :: y :: rest))).
Proof.
  change (PyStr.join " " (x :: y :: rest))
    with (x +:+ " " +:+ PyStr.join " " (y :: rest)).
  rewrite !chars_append. apply in_or_app. right. left. reflexivity.
Qed.

(** X23.  Among the tags below a value cell, one counts as a filled star
    exactly when it is a [span] whose class attribute is made of the two
    tokens [star] and [fill], in this order and with no token more. *)
Theorem counts_as_filled_star
        (name : string) (classes : list string) (attrs : gmap string string)
        (contents : list node) :
  Forall no_space classes ->
  has_name (Some "span") (Tag name classes attrs contents)
  && satisfies (ClassIs "star fill") (Tag name classes attrs contents) = true
  <-> name = "span" /\ classes = ["star"; "fill"].
Proof.
  intros Htokens. split.
  - intros H. apply andb_true_iff in H as [Hname Hclass].
    cbn [has_name] in Hname. apply String.eqb_eq in Hname. split; [assumption|].
    cbn [satisfies] in Hclass. unfold class_matches in Hclass.
    apply orb_true_iff in Hclass as [Htoken|Hjoined].
    + exfalso. apply existsb_exists in Htoken as (x & Hin & Hx).
      apply String.eqb_eq in Hx. subst x.
      rewrite Forall_forall in Htokens.
      apply (Htokens "star fill"); [now apply list_elem_of_In|].
      vm_compute. tauto.
    + apply andb_true_iff in Hjoined as [_ Hjoin]. apply String.eqb_eq in Hjoin.
      destruct classes as [|x [|y rest]].
      * discriminate.
      * exfalso. simpl in Hjoin. subst x.
        inversion Htokens as [|? ? Hx _]; subst. apply Hx. vm_compute. tauto.
      * inversion Htokens as [|? ? Hx Hrest]; subst.
        change (PyStr.join " " (x :: y :: rest))
          with (x +:+ " " +:+ PyStr.join " " (y :: rest)) in Hjoin.
        change "star fill" with ("star" +:+ " " +:+ "fill") in Hjoin.
        apply space_join_inj in Hjoin as [Hstar Hfill]; [|
          intros H; vm_compute in H;
          repeat (destruct H as [H|H]; [discriminate|]); exact H | assumption].
        subst x. destruct rest as [|z rest].
        -- simpl in Hfill. now subst y.
        -- exfalso. pose proof (join_two_has_space y z rest) as Hspace.
           rewrite <- Hfill in Hspace. vm_compute in Hspace.
           repeat (destruct Hspace as [Hspace|Hspace]; [discriminate|]). exact Hspace.
  - intros [-> ->]. reflexivity.
Qed.

Lemma counts_as_filled_star_witness :
  has_name (Some "span") (star_fill "1")
  && satisfies (ClassIs "star fill") (star_fill "1") = true
  <-> "span" = "span" /\ ["star"; "fill"] = ["star"; "fill"].
Proof.
  apply (counts_as_filled_star "span" ["star"; "fill"] ∅ [Fixtures.txt "1"]).
  repeat constructor; intros H; vm_compute in H;
    repeat (destruct H as [H|H]; [discriminate|]); exact H.
Defined.

End FilledStars.
